(** * Sonu: the Whisper bridge for Android (whisper-jni.cpp)

    A shallow embedding of the JNI bridge between the Java class
    [com.sonu.WhisperService] and the whisper.cpp C API, together with the
    small WAV reader the bridge uses, and the properties of both.

    Layout of the development:
    - machine integers and bytes, as the reader decodes them;
    - binary32 floating point, through the Standard Library's [SpecFloat];
    - the [std::ifstream] the reader pulls its bytes from;
    - the outside world of the bridge: the whisper.cpp API, the JVM and the
      Android log, as oracles over an abstract state, plus a log of every
      call that crosses the boundary;
    - the five JNI entry points, written in a state monad over that world;
    - the theorems.

    What the model takes for granted:
    - the target is little-endian, as every Android ABI is;
    - memory does not run out: [std::vector], [std::string] and
      [NewStringUTF] get what they ask for (on a 32-bit target this leaves
      out data sizes of [2 ^ 31] and more, which no vector holds there);
    - a local array without initialiser holds the bytes the stack held
      before, given by the world the function runs in, and the bytes it
      holds when the function returns stay on the stack;
    - the library and the virtual machine leave the memory of the bridge
      alone: what they change is their own hidden state;
    - strings are the same on both sides of [GetStringUTFChars] and
      [NewStringUTF] (no account of modified UTF-8).

    A write past the end of a buffer is undefined behaviour (the second
    [read] of the WAV reader does this when the data size is odd and the
    file holds that many bytes). The model does not guess what follows:
    the call ends there as [Undefined], the calls made until then are
    kept, and nothing is stated about the world it leaves. *)

From Stdlib Require Import ZArith QArith List String Ascii Strings.Byte Bool Lia.
From Stdlib Require Import Floats.SpecFloat DecimalString.
From stdpp Require Import gmap.

Import ListNotations.
Local Open Scope string_scope.
Local Open Scope list_scope.
Local Open Scope Z_scope.

(** ** Machine integers and bytes *)

Module Mem.

(** A byte of memory as an unsigned number. *)
Definition u8 (b : byte) : Z := Z.of_N (Byte.to_N b).

(** [*(uint32_t* )p] on a little-endian target (every Android ABI is):
    the four bytes at [p], lowest address first. *)
Definition load_u32 (b0 b1 b2 b3 : byte) : Z :=
  Z.lor (u8 b0)
    (Z.lor (Z.shiftl (u8 b1) 8)
       (Z.lor (Z.shiftl (u8 b2) 16) (Z.shiftl (u8 b3) 24))).

(** An [int16_t] element of a buffer that was filled bytewise. *)
Definition load_i16 (b0 b1 : byte) : Z :=
  let u := Z.lor (u8 b0) (Z.shiftl (u8 b1) 8) in
  if u <? 32768 then u else u - 65536.

(** The byte at offset [i] of a buffer, [x00] past its end. *)
Definition byte_at (buf : list byte) (i : nat) : byte := nth i buf x00.

(** Writing [src] at the start of [dst], as [read] does into its
    destination: the bytes of [dst] that [src] does not reach keep their
    old value, and the buffer keeps its size. *)
Definition overwrite (dst src : list byte) : list byte :=
  firstn (length dst) (src ++ skipn (length src) dst).

(** Storing [src] at the start of the buffer [dst] when it fits. [None]
    when [src] is longer than the buffer: the bytes in excess would be
    written past its end. *)
Definition store (dst src : list byte) : option (list byte) :=
  if (length src <=? length dst)%nat then Some (overwrite dst src) else None.

(** The memory [m] once the buffer that lies at its start holds [buf]. *)
Definition write (m : nat -> byte) (buf : list byte) : nat -> byte :=
  fun i => if (i <? length buf)%nat then byte_at buf i else m i.

(** The [int16_t] elements of a byte buffer, in order. *)
Fixpoint as_i16 (buf : list byte) : list Z :=
  match buf with
  | b0 :: b1 :: rest => load_i16 b0 b1 :: as_i16 rest
  | _ => []
  end.

(** Every byte, [x00] to [xff]. *)
Definition all_bytes : list byte :=
  flat_map (fun n => match Byte.of_N (N.of_nat n) with
                     | Some b => [b]
                     | None => []
                     end) (seq 0 256).

End Mem.

(** ** binary32 *)

Module F32.

Definition prec : Z := 24.
Definition emax : Z := 128.

(** A C [float]. *)
Definition t : Type := spec_float.

(** Conversion of an [int] to [float] (round to nearest even). *)
Definition of_int (z : Z) : t := binary_normalize prec emax z 0 false.

Definition div (x y : t) : t := SFdiv prec emax x y.

(** The literal [32768.0f]. *)
Definition c32768 : t := S754_finite false 8388608 (-8).

(** The real number a finite [float] denotes. *)
Definition to_Q (x : t) : option Q :=
  match x with
  | S754_zero _ => Some 0%Q
  | S754_finite s m e => Some (inject_Z (cond_Zopp s (Zpos m)) * 2 ^ e)%Q
  | S754_infinity _ | S754_nan => None
  end.

End F32.

(** ** std::ifstream *)

Module Ifstream.

(** An open input stream: the bytes of the file, the read position and
    the fail bit. *)
Record t : Type := mk { bytes : list byte; pos : nat; fail : bool }.

Definition open (contents : list byte) : t :=
  {| bytes := contents; pos := 0; fail := false |}.

(** [file.read(dst, n)]: nothing is extracted from a stream that has
    already failed; otherwise up to [n] bytes are extracted, and running
    out of input before [n] sets the fail bit. Returns the bytes stored
    at [dst]. *)
Definition read (n : nat) (f : t) : list byte * t :=
  if fail f then ([], f)
  else
    let got := firstn n (skipn (pos f) (bytes f)) in
    (got, {| bytes := bytes f;
             pos := (pos f + length got)%nat;
             fail := negb (length got =? n)%nat |}).

End Ifstream.

(** ** Pointers and the Java [long] that carries them *)

Module Abi.

(** The target: how wide a native pointer is, and whether the compiler
    sign-extends or zero-extends a pointer converted to a wider integer
    (GCC does the first, Clang the second). *)
Record t : Type := mk { ptr_bits : Z; ptr_sext : bool }.

Definition arm64_v8a : t := {| ptr_bits := 64; ptr_sext := false |}.
Definition armeabi_v7a : t := {| ptr_bits := 32; ptr_sext := false |}.

(** The Android ABIs are 32 or 64 bits wide. *)
Definition supported (a : t) : Prop := ptr_bits a = 32 \/ ptr_bits a = 64.

(** The value of a two's-complement integer of [bits] bits whose bit
    pattern is [z]. *)
Definition signed (bits z : Z) : Z :=
  let m := z mod 2 ^ bits in
  if m <? 2 ^ (bits - 1) then m else m - 2 ^ bits.

(** A native address, an unsigned number below [2 ^ ptr_bits]; [0] is
    [NULL]. *)
Definition ptr : Type := Z.

(** A Java [long]. *)
Definition jlong : Type := Z.

Definition is_ptr (a : t) (p : ptr) : Prop := 0 <= p < 2 ^ ptr_bits a.

(** [(jlong)ctx] *)
Definition ptr_to_jlong (a : t) (p : ptr) : jlong :=
  signed 64 (if ptr_sext a then signed (ptr_bits a) p else p).

(** [(struct whisper_context * )contextPtr] *)
Definition jlong_to_ptr (a : t) (j : jlong) : ptr := j mod 2 ^ ptr_bits a.

End Abi.

(** ** The whisper.cpp API, as far as the bridge touches it *)

Module Whisper.

Inductive sampling_strategy : Type :=
| WHISPER_SAMPLING_GREEDY
| WHISPER_SAMPLING_BEAM_SEARCH.

(** [struct whisper_full_params]. whisper.h is not part of the bridge:
    the fields the bridge assigns are spelled out, every other field of
    the structure is kept in [other], of a type [Other] the development
    is parametric in. *)
Record full_params (Other : Type) : Type := mk_full_params {
  strategy : sampling_strategy;
  n_threads : Z;
  offset_ms : Z;
  translate : bool;
  no_context : bool;
  single_segment : bool;
  print_special : bool;
  print_progress : bool;
  print_realtime : bool;
  print_timestamps : bool;
  language : string;
  other : Other
}.

Arguments mk_full_params {Other}.
Arguments strategy {Other}.
Arguments n_threads {Other}.
Arguments offset_ms {Other}.
Arguments translate {Other}.
Arguments no_context {Other}.
Arguments single_segment {Other}.
Arguments print_special {Other}.
Arguments print_progress {Other}.
Arguments print_realtime {Other}.
Arguments print_timestamps {Other}.
Arguments language {Other}.
Arguments other {Other}.

End Whisper.

(** ** JNI and the Android log *)

Module Jni.

(** A Java [String], by its characters. *)
Definition jstring : Type := string.

(** A reference to a Java [float[]] on the Java heap. *)
Definition jfloatArray : Type := nat.

(** Release modes of [Release<Type>ArrayElements]. *)
Definition JNI_COMMIT : Z := 1.
Definition JNI_ABORT : Z := 2.

End Jni.

Module Log.

Inductive priority : Type := ANDROID_LOG_INFO | ANDROID_LOG_ERROR.

(** A variadic argument of [__android_log_print]. *)
Inductive arg : Type :=
| Str (s : string)
| Int (z : Z)
| Size (n : nat).

Definition TAG : string := "WhisperJNI".

End Log.

(** ** How a call ends *)

(** A call returns a value, or runs into undefined behaviour, after
    which nothing is known of it. *)
Inductive outcome (A : Type) : Type :=
| Returns (a : A)
| Undefined.

Arguments Returns {A}.
Arguments Undefined {A}.

(** ** The world outside the bridge *)

Section Bridge.

(** [CParams] is [struct whisper_context_params], [Other] the fields of
    [struct whisper_full_params] the bridge leaves alone, [Ext] whatever
    state the library and the virtual machine keep behind their APIs. *)
Context {CParams Other Ext : Type}.

Abbreviation params := (Whisper.full_params Other).

(** Every call that leaves the bridge, with what it was given and what
    came back. *)
Inductive call : Type :=
| GetStringUTFChars (s : Jni.jstring) (ret : option string)
| ReleaseStringUTFChars (s : Jni.jstring) (chars : string)
| NewStringUTF (chars : string)
| GetArrayLength (a : Jni.jfloatArray) (ret : Z)
| GetFloatArrayElements (a : Jni.jfloatArray) (ret : option (list F32.t))
| ReleaseFloatArrayElements (a : Jni.jfloatArray) (elems : list F32.t) (mode : Z)
| android_log_print (prio : Log.priority) (tag fmt : string) (args : list Log.arg)
| whisper_context_default_params (ret : CParams)
| whisper_init_from_file_with_params (path : string) (cparams : CParams) (ret : Abi.ptr)
| whisper_free (ctx : Abi.ptr)
| whisper_full_default_params (s : Whisper.sampling_strategy) (ret : params)
| whisper_full (ctx : Abi.ptr) (p : params) (samples : list F32.t) (n_samples : Z) (ret : Z)
| whisper_full_n_segments (ctx : Abi.ptr) (ret : Z)
| whisper_full_get_segment_text (ctx : Abi.ptr) (i : Z) (ret : string)
| whisper_print_system_info (ret : string).

(** What the library and the virtual machine answer. Nothing is assumed
    about the answers: each is an arbitrary function of the arguments
    and of the hidden state. *)
Record externals : Type := mk_externals {
  ext_GetStringUTFChars : Jni.jstring -> Ext -> option string * Ext;
  ext_elements_available : Jni.jfloatArray -> Ext -> bool * Ext;
  ext_context_default_params : Ext -> CParams * Ext;
  ext_init_from_file_with_params : string -> CParams -> Ext -> Abi.ptr * Ext;
  ext_free : Abi.ptr -> Ext -> Ext;
  ext_full_default_params : Whisper.sampling_strategy -> Ext -> params * Ext;
  ext_full : Abi.ptr -> params -> list F32.t -> Z -> Ext -> Z * Ext;
  ext_full_n_segments : Abi.ptr -> Ext -> Z * Ext;
  ext_full_get_segment_text : Abi.ptr -> Z -> Ext -> string * Ext;
  ext_print_system_info : Ext -> string * Ext
}.

(** The state a call of the bridge runs in. The bridge has no variable
    of its own that outlives a call (no global, no static), so none
    appears here.
    - [ext]: the hidden state of library and virtual machine;
    - [heap]: the Java [float[]] objects;
    - [files]: the file system, [None] for a file that cannot be opened;
    - [stack]: the bytes of the stack where the local array [header] of
      the WAV reader lies: what the array holds before it is written to,
      and what it leaves behind. *)
Record world : Type := mk_world {
  ext : Ext;
  heap : gmap nat (list F32.t);
  files : string -> option (list byte);
  stack : nat -> byte
}.

Definition with_ext (w : world) (e : Ext) : world :=
  {| ext := e; heap := heap w; files := files w; stack := stack w |}.

Definition with_heap (w : world) (h : gmap nat (list F32.t)) : world :=
  {| ext := ext w; heap := h; files := files w; stack := stack w |}.

Definition with_stack (w : world) (s : nat -> byte) : world :=
  {| ext := ext w; heap := heap w; files := files w; stack := s |}.

Variable abi : Abi.t.
Variable env : externals.

(** *** The monad of bridge code

    A computation runs from a world to a value, the world it leaves and
    the calls it made, oldest first. *)

Definition M (A : Type) : Type := world -> A * world * list call.

Definition ret {A : Type} (a : A) : M A := fun w => (a, w, []).

Definition bind {A B : Type} (m : M A) (k : A -> M B) : M B :=
  fun w =>
    let '(a, w1, t1) := m w in
    let '(b, w2, t2) := k a w1 in
    (b, w2, t1 ++ t2).

Notation "x <- m ;; k" := (bind m (fun x => k))
  (at level 100, m at next level, right associativity).
Notation "m ;;; k" := (bind m (fun _ => k))
  (at level 100, right associativity).

Definition result {A : Type} (m : M A) (w : world) : A := fst (fst (m w)).
Definition final {A : Type} (m : M A) (w : world) : world := snd (fst (m w)).
Definition trace {A : Type} (m : M A) (w : world) : list call := snd (m w).

Definition record (c : call) : M unit := fun w => (tt, w, [c]).

(** A computation that returns what [m] returns. *)
Definition returning {A : Type} (m : M A) : M (outcome A) :=
  a <- m ;; ret (Returns a).

(** A call answered by an oracle. *)
Definition ask {A : Type} (f : Ext -> A * Ext) (c : A -> call) : M A :=
  fun w => let r := f (ext w) in (fst r, with_ext w (snd r), [c (fst r)]).

Definition info (fmt : string) (args : list Log.arg) : call :=
  android_log_print Log.ANDROID_LOG_INFO Log.TAG fmt args.

Definition error (fmt : string) (args : list Log.arg) : call :=
  android_log_print Log.ANDROID_LOG_ERROR Log.TAG fmt args.

Definition LOGI (fmt : string) (args : list Log.arg) : M unit :=
  record (info fmt args).

Definition LOGE (fmt : string) (args : list Log.arg) : M unit :=
  record (error fmt args).

(** *** JNIEnv *)

Definition env_GetStringUTFChars (s : Jni.jstring) : M (option string) :=
  ask (ext_GetStringUTFChars env s) (GetStringUTFChars s).

Definition env_ReleaseStringUTFChars (s : Jni.jstring) (chars : string) : M unit :=
  record (ReleaseStringUTFChars s chars).

Definition env_NewStringUTF (chars : string) : M Jni.jstring :=
  record (NewStringUTF chars) ;;; ret chars.

Definition elements (w : world) (a : Jni.jfloatArray) : list F32.t :=
  match heap w !! a with
  | Some l => l
  | None => []
  end.

Definition env_GetArrayLength (a : Jni.jfloatArray) : M Z :=
  fun w => let n := Z.of_nat (length (elements w a)) in
           (record (GetArrayLength a n) ;;; ret n) w.

(** The virtual machine hands out the elements of the array, or [NULL]
    when it cannot. *)
Definition env_GetFloatArrayElements (a : Jni.jfloatArray) : M (option (list F32.t)) :=
  fun w => ask (fun e => let r := ext_elements_available env a e in
                         ((if fst r then Some (elements w a) else None), snd r))
               (GetFloatArrayElements a) w.

(** Mode [0] and [JNI_COMMIT] copy the native buffer back into the Java
    array, [JNI_ABORT] frees it without copying back. *)
Definition env_ReleaseFloatArrayElements
    (a : Jni.jfloatArray) (elems : list F32.t) (mode : Z) : M unit :=
  fun w =>
    (tt,
     with_heap w (if mode =? Jni.JNI_ABORT then heap w else <[a := elems]> (heap w)),
     [ReleaseFloatArrayElements a elems mode]).

(** *** whisper.h *)

Definition lib_context_default_params : M CParams :=
  ask (ext_context_default_params env) whisper_context_default_params.

Definition lib_init_from_file_with_params (path : string) (cp : CParams) : M Abi.ptr :=
  ask (ext_init_from_file_with_params env path cp)
      (whisper_init_from_file_with_params path cp).

Definition lib_free (ctx : Abi.ptr) : M unit :=
  ask (fun e => (tt, ext_free env ctx e)) (fun _ => whisper_free ctx).

Definition lib_full_default_params (s : Whisper.sampling_strategy) : M params :=
  ask (ext_full_default_params env s) (whisper_full_default_params s).

Definition lib_full (ctx : Abi.ptr) (p : params) (samples : list F32.t) (n : Z) : M Z :=
  ask (ext_full env ctx p samples n) (whisper_full ctx p samples n).

Definition lib_full_n_segments (ctx : Abi.ptr) : M Z :=
  ask (ext_full_n_segments env ctx) (whisper_full_n_segments ctx).

Definition lib_full_get_segment_text (ctx : Abi.ptr) (i : Z) : M string :=
  ask (ext_full_get_segment_text env ctx i) (whisper_full_get_segment_text ctx i).

Definition lib_print_system_info : M string :=
  ask (ext_print_system_info env) whisper_print_system_info.

(** ** The bridge *)

(** *** read_wav_file *)

(** [pcm16[i] / 32768.0f]: the sample is promoted to [int], converted to
    [float] and divided. *)
Definition pcm16_to_f32 (s : Z) : F32.t := F32.div (F32.of_int s) F32.c32768.

(** The magic a WAV file starts with. *)
Definition riff : list byte := ["R"; "I"; "F"; "F"]%byte.

(** The test [header[0] != 'R' || ... || header[3] != 'F']. *)
Definition bad_magic (header : list byte) : bool :=
  negb (Byte.eqb (Mem.byte_at header 0) "R"%byte)
  || negb (Byte.eqb (Mem.byte_at header 1) "I"%byte)
  || negb (Byte.eqb (Mem.byte_at header 2) "F"%byte)
  || negb (Byte.eqb (Mem.byte_at header 3) "F"%byte).

(** [*(uint32_t* )(header + 40)] *)
Definition data_size_of (header : list byte) : Z :=
  Mem.load_u32 (Mem.byte_at header 40) (Mem.byte_at header 41)
               (Mem.byte_at header 42) (Mem.byte_at header 43).

(** [static bool read_wav_file(const std::string& filename,
    std::vector<float>& pcmf32)]: the result and the vector as the call
    leaves it. The first [read] stores at most 44 bytes in the 44 bytes of
    [header]. The second asks for [data_size] bytes although the vector
    holds [2 * (data_size / 2)]: when [data_size] is odd and the file has
    that many bytes left, the last of them is written past the end of the
    vector (through a null pointer when the vector is empty), and the
    behaviour is undefined. *)
Definition read_wav_file (filename : string) (pcmf32 : list F32.t)
  : M (outcome (bool * list F32.t)) :=
  fun w =>
    match files w filename with
    | None =>
      (LOGE "Failed to open audio file: %s" [Log.Str filename] ;;;
       ret (Returns (false, pcmf32))) w
    | Some contents =>
      let file := Ifstream.open contents in
      (* char header[44]; file.read(header, 44); *)
      let header := map (stack w) (seq 0 44) in
      let got := fst (Ifstream.read 44 file) in
      let file := snd (Ifstream.read 44 file) in
      let header := Mem.overwrite header got in
      (* the array lies on the stack, which now holds these bytes *)
      let w := with_stack w (Mem.write (stack w) header) in
      if bad_magic header then
        (LOGE "Not a valid WAV file" [] ;;; ret (Returns (false, pcmf32))) w
      else
        let data_size := data_size_of header in
        (* std::vector<int16_t> pcm16(data_size / 2); *)
        let pcm16 := repeat x00 (2 * Z.to_nat (data_size / 2)) in
        let got := fst (Ifstream.read (Z.to_nat data_size) file) in
        match Mem.store pcm16 got with
        | None => ret Undefined w
        | Some pcm16 => ret (Returns (true, map pcm16_to_f32 (Mem.as_i16 pcm16))) w
        end
    end.

(** Names for the values [read_wav_file] goes through, for a file of
    contents [c]. *)

(** The 44 bytes of [header] after the first [read]. *)
Definition header_of (w : world) (c : list byte) : list byte :=
  Mem.overwrite (map (stack w) (seq 0 44)) (fst (Ifstream.read 44 (Ifstream.open c))).

(** The bytes the second [read] stores. *)
Definition data_of (w : world) (c : list byte) : list byte :=
  fst (Ifstream.read (Z.to_nat (data_size_of (header_of w c)))
         (snd (Ifstream.read 44 (Ifstream.open c)))).

(** *** The inference parameters *)

(** The ten assignments to [params] that precede [whisper_full]. *)
Definition configure (p : params) : params :=
  {| Whisper.strategy := Whisper.strategy p;
     Whisper.n_threads := 4;
     Whisper.offset_ms := 0;
     Whisper.translate := false;
     Whisper.no_context := true;
     Whisper.single_segment := false;
     Whisper.print_special := false;
     Whisper.print_progress := false;
     Whisper.print_realtime := false;
     Whisper.print_timestamps := false;
     Whisper.language := "en";
     Whisper.other := Whisper.other p |}.

(** *** Collecting the segments *)

(** [for (int i = 0; i < n_segments; i++) { ... }], from the state
    [(i, transcription)]; [fuel] bounds the number of iterations. *)
Fixpoint collect_segments (fuel : nat) (ctx : Abi.ptr) (n_segments i : Z)
    (transcription : string) : M string :=
  match fuel with
  | O => ret transcription
  | S fuel =>
    if i <? n_segments then
      text <- lib_full_get_segment_text ctx i ;;
      let transcription := (transcription ++ text)%string in
      let transcription :=
        if i <? n_segments - 1 then (transcription ++ " ")%string
        else transcription in
      collect_segments fuel ctx n_segments (i + 1) transcription
    else ret transcription
  end.

(** *** The entry points *)

(** [Java_com_sonu_WhisperService_initContext] *)
Definition initContext (modelPath : Jni.jstring) : M Abi.jlong :=
  model_path_chars <- env_GetStringUTFChars modelPath ;;
  match model_path_chars with
  | None => LOGE "Failed to get model path string" [] ;;; ret 0
  | Some model_path_chars =>
    LOGI "Initializing whisper context from: %s" [Log.Str model_path_chars] ;;;
    cparams <- lib_context_default_params ;;
    ctx <- lib_init_from_file_with_params model_path_chars cparams ;;
    env_ReleaseStringUTFChars modelPath model_path_chars ;;;
    if ctx =? 0 then
      LOGE "Failed to initialize whisper context" [] ;;; ret 0
    else
      LOGI "Whisper context initialized successfully" [] ;;;
      ret (Abi.ptr_to_jlong abi ctx)
  end.

(** [Java_com_sonu_WhisperService_freeContext] *)
Definition freeContext (contextPtr : Abi.jlong) : M unit :=
  if contextPtr =? 0 then ret tt
  else
    let ctx := Abi.jlong_to_ptr abi contextPtr in
    lib_free ctx ;;;
    LOGI "Whisper context freed" [].

(** What both transcription entry points do once [whisper_full] has
    returned [0]; [announce] is the one that logs. *)
Definition collect_transcription (announce : bool) (ctx : Abi.ptr) : M Jni.jstring :=
  n_segments <- lib_full_n_segments ctx ;;
  (if announce then LOGI "Found %d segments" [Log.Int n_segments] else ret tt) ;;;
  transcription <- collect_segments (Z.to_nat n_segments) ctx n_segments 0 "" ;;
  (if announce then LOGI "Transcription complete: %s" [Log.Str transcription]
   else ret tt) ;;;
  env_NewStringUTF transcription.

(** [Java_com_sonu_WhisperService_transcribe]. The call is [Undefined]
    when the reader is: nothing of what follows line 119 is modelled
    then. *)
Definition transcribe (contextPtr : Abi.jlong) (audioPath : Jni.jstring)
  : M (outcome Jni.jstring) :=
  if contextPtr =? 0 then
    LOGE "Invalid context pointer" [] ;;;
    returning (env_NewStringUTF "Error: Invalid context")
  else
    audio_path_chars <- env_GetStringUTFChars audioPath ;;
    match audio_path_chars with
    | None =>
      LOGE "Failed to get audio path string" [] ;;;
      returning (env_NewStringUTF "Error: Failed to get audio path")
    | Some audio_path_chars =>
      LOGI "Transcribing audio file: %s" [Log.Str audio_path_chars] ;;;
      r <- read_wav_file audio_path_chars [] ;;
      match r with
      | Undefined => ret Undefined
      | Returns (ok, pcmf32) =>
        if negb ok then
          env_ReleaseStringUTFChars audioPath audio_path_chars ;;;
          returning (env_NewStringUTF "Error: Failed to read audio file")
        else
          LOGI "Read %zu audio samples" [Log.Size (length pcmf32)] ;;;
          let ctx := Abi.jlong_to_ptr abi contextPtr in
          p <- lib_full_default_params Whisper.WHISPER_SAMPLING_GREEDY ;;
          let p := configure p in
          result <- lib_full ctx p pcmf32 (Abi.signed 32 (Z.of_nat (length pcmf32))) ;;
          env_ReleaseStringUTFChars audioPath audio_path_chars ;;;
          if negb (result =? 0) then
            LOGE "Whisper transcription failed with code: %d" [Log.Int result] ;;;
            returning (env_NewStringUTF "Error: Transcription failed")
          else returning (collect_transcription true ctx)
      end
    end.

(** [Java_com_sonu_WhisperService_transcribeFromFloatArray] *)
Definition transcribeFromFloatArray (contextPtr : Abi.jlong)
    (audioData : Jni.jfloatArray) : M Jni.jstring :=
  if contextPtr =? 0 then
    LOGE "Invalid context pointer" [] ;;;
    env_NewStringUTF "Error: Invalid context"
  else
    len <- env_GetArrayLength audioData ;;
    audio_data_arr <- env_GetFloatArrayElements audioData ;;
    match audio_data_arr with
    | None =>
      LOGE "Failed to get audio data array" [] ;;;
      env_NewStringUTF "Error: Failed to get audio data"
    | Some audio_data_arr =>
      let ctx := Abi.jlong_to_ptr abi contextPtr in
      p <- lib_full_default_params Whisper.WHISPER_SAMPLING_GREEDY ;;
      let p := configure p in
      result <- lib_full ctx p audio_data_arr len ;;
      env_ReleaseFloatArrayElements audioData audio_data_arr Jni.JNI_ABORT ;;;
      if negb (result =? 0) then
        LOGE "Whisper transcription failed with code: %d" [Log.Int result] ;;;
        env_NewStringUTF "Error: Transcription failed"
      else collect_transcription false ctx
    end.

(** [Java_com_sonu_WhisperService_getSystemInfo] *)
Definition getSystemInfo : M Jni.jstring :=
  sysinfo <- lib_print_system_info ;;
  env_NewStringUTF sysinfo.

(** *** Reading a trace *)

(** The context a call into the library is made on. *)
Definition ctx_of (c : call) : option Abi.ptr :=
  match c with
  | whisper_free ctx
  | whisper_full ctx _ _ _ _
  | whisper_full_n_segments ctx _
  | whisper_full_get_segment_text ctx _ _ => Some ctx
  | _ => None
  end.

(** The audio buffer a call carries, in or out. *)
Definition samples_of (c : call) : option (list F32.t) :=
  match c with
  | GetFloatArrayElements _ (Some l) => Some l
  | ReleaseFloatArrayElements _ l _ => Some l
  | whisper_full _ _ l _ _ => Some l
  | _ => None
  end.

Definition is_full (c : call) : bool :=
  match c with
  | whisper_full _ _ _ _ _ => true
  | _ => false
  end.

(** The segments fetched from the library: index asked for, text
    answered, in the order of the calls. *)
Definition segment_texts (t : list call) : list (Z * string) :=
  flat_map (fun c => match c with
                     | whisper_full_get_segment_text _ i text => [(i, text)]
                     | _ => []
                     end) t.

(** The [k] indices [i], [i + 1], ... *)
Fixpoint upfrom (i : Z) (k : nat) : list Z :=
  match k with
  | O => []
  | S k => i :: upfrom (i + 1) k
  end.

(** The call that fetches segment [i] and gets [text]. *)
Definition segment_call (ctx : Abi.ptr) (it : Z * string) : call :=
  whisper_full_get_segment_text ctx (fst it) (snd it).

(** *** The ways through the entry points

    Each relation lists the paths through one entry point: what it
    returns, the calls it makes and the world it leaves. That the code
    runs along exactly these paths is proved below. *)

(** What does not belong to the library or the virtual machine. *)
Definition same_memory (w w' : world) : Prop :=
  heap w' = heap w /\ files w' = files w /\ stack w' = stack w.

(** The same, the stack apart: the reader has left a header there. *)
Definition same_store (w w' : world) : Prop :=
  heap w' = heap w /\ files w' = files w.

Inductive initContext_run (modelPath : Jni.jstring)
  : Abi.jlong -> list call -> Prop :=
| init_no_path :
    initContext_run modelPath 0
      [GetStringUTFChars modelPath None;
       error "Failed to get model path string" []]
| init_failed (chars : string) (cp : CParams) :
    initContext_run modelPath 0
      [GetStringUTFChars modelPath (Some chars);
       info "Initializing whisper context from: %s" [Log.Str chars];
       whisper_context_default_params cp;
       whisper_init_from_file_with_params chars cp 0;
       ReleaseStringUTFChars modelPath chars;
       error "Failed to initialize whisper context" []]
| init_done (chars : string) (cp : CParams) (ctx : Abi.ptr) :
    ctx <> 0 ->
    initContext_run modelPath (Abi.ptr_to_jlong abi ctx)
      [GetStringUTFChars modelPath (Some chars);
       info "Initializing whisper context from: %s" [Log.Str chars];
       whisper_context_default_params cp;
       whisper_init_from_file_with_params chars cp ctx;
       ReleaseStringUTFChars modelPath chars;
       info "Whisper context initialized successfully" []].

(** The calls that fetch and join the segments, and what they return. *)
Definition collecting (announce : bool) (ctx : Abi.ptr) (n : Z)
    (texts : list string) : list call :=
  [whisper_full_n_segments ctx n]
  ++ (if announce then [info "Found %d segments" [Log.Int n]] else [])
  ++ map (segment_call ctx) (combine (upfrom 0 (Z.to_nat n)) texts)
  ++ (if announce
      then [info "Transcription complete: %s" [Log.Str (String.concat " " texts)]]
      else [])
  ++ [NewStringUTF (String.concat " " texts)].

Inductive transcribe_run (contextPtr : Abi.jlong) (audioPath : Jni.jstring)
    (w : world) : outcome Jni.jstring -> list call -> world -> Prop :=
| transcribe_null :
    contextPtr = 0 ->
    transcribe_run contextPtr audioPath w (Returns "Error: Invalid context")
      [error "Invalid context pointer" [];
       NewStringUTF "Error: Invalid context"] w
| transcribe_no_path (w' : world) :
    contextPtr <> 0 -> same_memory w w' ->
    transcribe_run contextPtr audioPath w (Returns "Error: Failed to get audio path")
      [GetStringUTFChars audioPath None;
       error "Failed to get audio path string" [];
       NewStringUTF "Error: Failed to get audio path"] w'
| transcribe_unreadable (chars : string) (pcmf32 : list F32.t) (w' : world) :
    contextPtr <> 0 -> same_store w w' ->
    result (read_wav_file chars []) w = Returns (false, pcmf32) ->
    transcribe_run contextPtr audioPath w (Returns "Error: Failed to read audio file")
      ([GetStringUTFChars audioPath (Some chars);
        info "Transcribing audio file: %s" [Log.Str chars]]
       ++ trace (read_wav_file chars []) w
       ++ [ReleaseStringUTFChars audioPath chars;
           NewStringUTF "Error: Failed to read audio file"]) w'
| transcribe_failed (chars : string) (pcmf32 : list F32.t) (d : params)
    (rc : Z) (w' : world) :
    contextPtr <> 0 -> same_store w w' ->
    result (read_wav_file chars []) w = Returns (true, pcmf32) ->
    rc <> 0 ->
    transcribe_run contextPtr audioPath w (Returns "Error: Transcription failed")
      [GetStringUTFChars audioPath (Some chars);
       info "Transcribing audio file: %s" [Log.Str chars];
       info "Read %zu audio samples" [Log.Size (length pcmf32)];
       whisper_full_default_params Whisper.WHISPER_SAMPLING_GREEDY d;
       whisper_full (Abi.jlong_to_ptr abi contextPtr) (configure d) pcmf32
         (Abi.signed 32 (Z.of_nat (length pcmf32))) rc;
       ReleaseStringUTFChars audioPath chars;
       error "Whisper transcription failed with code: %d" [Log.Int rc];
       NewStringUTF "Error: Transcription failed"] w'
| transcribe_done (chars : string) (pcmf32 : list F32.t) (d : params)
    (n : Z) (texts : list string) (w' : world) :
    contextPtr <> 0 -> same_store w w' ->
    result (read_wav_file chars []) w = Returns (true, pcmf32) ->
    length texts = Z.to_nat n ->
    transcribe_run contextPtr audioPath w (Returns (String.concat " " texts))
      ([GetStringUTFChars audioPath (Some chars);
        info "Transcribing audio file: %s" [Log.Str chars];
        info "Read %zu audio samples" [Log.Size (length pcmf32)];
        whisper_full_default_params Whisper.WHISPER_SAMPLING_GREEDY d;
        whisper_full (Abi.jlong_to_ptr abi contextPtr) (configure d) pcmf32
          (Abi.signed 32 (Z.of_nat (length pcmf32))) 0;
        ReleaseStringUTFChars audioPath chars]
       ++ collecting true (Abi.jlong_to_ptr abi contextPtr) n texts) w'
| transcribe_undefined (chars : string) (w' : world) :
    contextPtr <> 0 ->
    result (read_wav_file chars []) w = Undefined ->
    transcribe_run contextPtr audioPath w Undefined
      [GetStringUTFChars audioPath (Some chars);
       info "Transcribing audio file: %s" [Log.Str chars]] w'.

Inductive transcribeFromFloatArray_run (contextPtr : Abi.jlong)
    (audioData : Jni.jfloatArray) (w : world)
  : Jni.jstring -> list call -> world -> Prop :=
| from_array_null :
    contextPtr = 0 ->
    transcribeFromFloatArray_run contextPtr audioData w "Error: Invalid context"
      [error "Invalid context pointer" [];
       NewStringUTF "Error: Invalid context"] w
| from_array_no_elements (w' : world) :
    contextPtr <> 0 -> same_memory w w' ->
    transcribeFromFloatArray_run contextPtr audioData w
      "Error: Failed to get audio data"
      [GetArrayLength audioData (Z.of_nat (length (elements w audioData)));
       GetFloatArrayElements audioData None;
       error "Failed to get audio data array" [];
       NewStringUTF "Error: Failed to get audio data"] w'
| from_array_failed (d : params) (rc : Z) (w' : world) :
    contextPtr <> 0 -> same_memory w w' -> rc <> 0 ->
    transcribeFromFloatArray_run contextPtr audioData w
      "Error: Transcription failed"
      [GetArrayLength audioData (Z.of_nat (length (elements w audioData)));
       GetFloatArrayElements audioData (Some (elements w audioData));
       whisper_full_default_params Whisper.WHISPER_SAMPLING_GREEDY d;
       whisper_full (Abi.jlong_to_ptr abi contextPtr) (configure d)
         (elements w audioData) (Z.of_nat (length (elements w audioData))) rc;
       ReleaseFloatArrayElements audioData (elements w audioData) Jni.JNI_ABORT;
       error "Whisper transcription failed with code: %d" [Log.Int rc];
       NewStringUTF "Error: Transcription failed"] w'
| from_array_done (d : params) (n : Z) (texts : list string) (w' : world) :
    contextPtr <> 0 -> same_memory w w' ->
    length texts = Z.to_nat n ->
    transcribeFromFloatArray_run contextPtr audioData w (String.concat " " texts)
      ([GetArrayLength audioData (Z.of_nat (length (elements w audioData)));
        GetFloatArrayElements audioData (Some (elements w audioData));
        whisper_full_default_params Whisper.WHISPER_SAMPLING_GREEDY d;
        whisper_full (Abi.jlong_to_ptr abi contextPtr) (configure d)
          (elements w audioData) (Z.of_nat (length (elements w audioData))) 0;
        ReleaseFloatArrayElements audioData (elements w audioData) Jni.JNI_ABORT]
       ++ collecting false (Abi.jlong_to_ptr abi contextPtr) n texts) w'.

(** *** Notions the properties are stated with *)

(** A call that reports a failure to the bridge: a string or an array
    the virtual machine does not hand out, an inference that returns a
    code other than [0]. *)
Definition failure (c : call) : Prop :=
  match c with
  | GetStringUTFChars _ None => True
  | GetFloatArrayElements _ None => True
  | whisper_full _ _ _ _ rc => rc <> 0
  | _ => False
  end.

(** The parameters [p] of an inference are the defaults for greedy
    sampling the library gave in trace [t], with the bridge's fixed
    values on top and every other field as the library set it. *)
Definition configured (t : list call) (p : params) : Prop :=
  exists d : params,
    In (whisper_full_default_params Whisper.WHISPER_SAMPLING_GREEDY d) t /\
    p = configure d /\
    Whisper.n_threads p = 4 /\
    Whisper.translate p = false /\
    Whisper.language p = "en" /\
    Whisper.offset_ms p = 0 /\
    Whisper.no_context p = true /\
    Whisper.single_segment p = false /\
    Whisper.strategy p = Whisper.strategy d /\
    Whisper.other p = Whisper.other d.

(** The calls that follow the release of the array elements. *)
Fixpoint after_release (t : list call) : list call :=
  match t with
  | [] => []
  | ReleaseFloatArrayElements _ _ _ :: rest => rest
  | _ :: rest => after_release rest
  end.

(** The string [r] is the texts of the segments fetched in trace [t],
    segments [0] to [n - 1] in this order for the [n] the library
    counted, joined by single spaces. *)
Definition joined (ctx : Abi.ptr) (t : list call) (r : string) : Prop :=
  exists n : Z,
    In (whisper_full_n_segments ctx n) t /\
    map fst (segment_texts t) = upfrom 0 (Z.to_nat n) /\
    r = String.concat " " (map snd (segment_texts t)) /\
    (n <= 0 -> r = "" /\ String.prefix "Error: " r = false).

(** The calls of a trace that are made on a context are made on [ctx]. *)
Definition on_context (ctx : Abi.ptr) (t : list call) : Prop :=
  Forall (fun c => match ctx_of c with
                   | Some x => x = ctx
                   | None => True
                   end) t.

(** [initContext] did not get a context. *)
Definition init_failure (modelPath : Jni.jstring) (t : list call) : Prop :=
  In (GetStringUTFChars modelPath None) t \/
  exists (path : string) (cp : CParams),
    In (whisper_init_from_file_with_params path cp 0) t.

End Bridge.

Arguments call : clear implicits.
Arguments externals : clear implicits.
Arguments world : clear implicits.

(** The check that [pcm16_to_f32] of the sample made of two bytes denotes
    the sample divided by 32768, exactly. *)
Definition exact_sample (b0 b1 : byte) : bool :=
  let s := Mem.load_i16 b0 b1 in
  match F32.to_Q (pcm16_to_f32 s) with
  | Some q => Qeq_bool q (s # 32768)
  | None => false
  end.

(** The [float] [x] denotes the sample [s] divided by 32768, exactly: a
    number from -1, which only [-32768] gives, to below 1. *)
Definition exact_quotient (s : Z) (x : F32.t) : Prop :=
  exists q : Q,
    F32.to_Q x = Some q /\
    (q == s # 32768)%Q /\
    (-1 <= q)%Q /\ (q < 1)%Q /\
    ((q == -1)%Q <-> s = -32768).

(** The decimal digits of an [int], as [%d] prints them. *)
Definition decimal (z : Z) : string :=
  DecimalString.NilZero.string_of_int (Z.to_int z).

(** [needle] occurs in [s]. *)
Definition occurs (needle s : string) : bool :=
  match String.index 0 needle s with
  | Some _ => true
  | None => false
  end.

(** ** A small concrete world

    One library that always answers the same, one WAV file of two samples,
    one Java array. *)

Module Demo.

Definition default_params : Whisper.full_params unit :=
  {| Whisper.strategy := Whisper.WHISPER_SAMPLING_GREEDY;
     Whisper.n_threads := 2;
     Whisper.offset_ms := 0;
     Whisper.translate := false;
     Whisper.no_context := false;
     Whisper.single_segment := false;
     Whisper.print_special := false;
     Whisper.print_progress := true;
     Whisper.print_realtime := false;
     Whisper.print_timestamps := true;
     Whisper.language := "auto";
     Whisper.other := tt |}.

(** A library and a virtual machine without hidden state:
    [chars_ok] and [elems_ok] say whether the virtual machine hands out
    strings and arrays, [ctx] is the context [whisper_init...] returns,
    [rc] what [whisper_full] returns, [segs] the segments it finds. *)
Definition lib (chars_ok elems_ok : bool) (ctx : Abi.ptr) (rc : Z)
    (segs : list string) : externals unit unit unit :=
  {| ext_GetStringUTFChars := fun s e => (if chars_ok then Some s else None, e);
     ext_elements_available := fun _ e => (elems_ok, e);
     ext_context_default_params := fun e => (tt, e);
     ext_init_from_file_with_params := fun _ _ e => (ctx, e);
     ext_free := fun _ e => e;
     ext_full_default_params := fun _ e => (default_params, e);
     ext_full := fun _ _ _ _ e => (rc, e);
     ext_full_n_segments := fun _ e => (Z.of_nat (length segs), e);
     ext_full_get_segment_text := fun _ i e => (nth (Z.to_nat i) segs "", e);
     ext_print_system_info := fun e => ("NEON = 1", e) |}.

(** A 44-byte header announcing 4 bytes of data, then the samples
    [-32768] and [32767]. *)
Definition wav : list byte :=
  riff ++ repeat x00 36 ++ [x04; x00; x00; x00] ++ [x00; x80; xff; x7f].

Definition fs (name : string) : option (list byte) :=
  if String.eqb name "a.wav" then Some wav
  else if String.eqb name "empty.wav" then Some []
  else None.

(** A world whose stack is all zeroes. *)
Definition w0 : world unit :=
  {| ext := tt; heap := {[ 1%nat := [F32.c32768] ]}; files := fs;
     stack := fun _ => x00 |}.

(** The same world, entered when the stack still holds the header of a
    WAV file read earlier. *)
Definition w_stale : world unit :=
  {| ext := tt; heap := heap w0; files := fs;
     stack := fun i => Mem.byte_at wav i |}.

End Demo.

(** ** More files

    WAV files that are cut short, carry more than they announce, or have
    other bytes in the fields the reader skips. *)

Module Files.

(** A 44-byte header that announces [d0] bytes of data (below 256), its
    bytes 4 to 39 all [fill]. *)
Definition header (fill d0 : byte) : list byte :=
  riff ++ repeat fill 36 ++ [d0; x00; x00; x00].

(** Announces 4 bytes of data and holds none. *)
Definition cut : list byte := header x00 x04.

(** Holds the samples [-32768] and [32767], as [Demo.wav] does, between
    other header fields and before a further chunk. *)
Definition tagged : list byte := header xff x04 ++ [x00; x80; xff; x7f].
Definition trailing : list byte := Demo.wav ++ [x4c; x49; x53; x54; x00; x01].

(** Nothing but the magic. *)
Definition magic_only : list byte := riff.

(** Announces 3 bytes of data and holds them: one sample and a byte. *)
Definition odd : list byte := header x00 x03 ++ [x00; x80; xff].

(** Announces 3 bytes of data and holds 2 of them. *)
Definition odd_cut : list byte := header x00 x03 ++ [x00; x80].

(** Announces 1 byte of data and holds it. *)
Definition one : list byte := header x00 x01 ++ [x2a].

Definition fs (name : string) : option (list byte) :=
  if String.eqb name "a.wav" then Some Demo.wav
  else if String.eqb name "cut.wav" then Some cut
  else if String.eqb name "tagged.wav" then Some tagged
  else if String.eqb name "trailing.wav" then Some trailing
  else if String.eqb name "magic.wav" then Some magic_only
  else if String.eqb name "odd.wav" then Some odd
  else if String.eqb name "odd_cut.wav" then Some odd_cut
  else if String.eqb name "one.wav" then Some one
  else None.

(** A world with these files and a stack of zeroes. *)
Definition w : world unit :=
  {| ext := tt; heap := ∅; files := fs; stack := fun _ => x00 |}.

(** The same, entered when the stack holds the header of [Demo.wav]. *)
Definition w_dirty : world unit :=
  {| ext := tt; heap := ∅; files := fs; stack := fun i => Mem.byte_at Demo.wav i |}.

End Files.

(** ** Measures of a trace *)

Section Measures.

Context {CParams Other : Type}.

Implicit Types (c : call CParams Other) (t : list (call CParams Other)).

(** How many calls of a trace are of a kind. *)
Definition count (kind : call CParams Other -> bool) t : nat :=
  length (List.filter kind t).

Definition chars_obtained c : bool :=
  match c with
  | GetStringUTFChars _ (Some _) => true
  | _ => false
  end.

Definition chars_released c : bool :=
  match c with
  | ReleaseStringUTFChars _ _ => true
  | _ => false
  end.

Definition elements_obtained c : bool :=
  match c with
  | GetFloatArrayElements _ (Some _) => true
  | _ => false
  end.

Definition elements_released c : bool :=
  match c with
  | ReleaseFloatArrayElements _ _ _ => true
  | _ => false
  end.

Definition string_created c : bool :=
  match c with
  | NewStringUTF _ => true
  | _ => false
  end.

(** A line of priority [ANDROID_LOG_ERROR]. *)
Definition error_line c : bool :=
  match c with
  | android_log_print Log.ANDROID_LOG_ERROR _ _ _ => true
  | _ => false
  end.

Definition log_line c : bool :=
  match c with
  | android_log_print _ _ _ _ => true
  | _ => false
  end.

(** A call into whisper.cpp. *)
Definition library_call c : bool :=
  match c with
  | whisper_context_default_params _
  | whisper_init_from_file_with_params _ _ _
  | whisper_free _
  | whisper_full_default_params _ _
  | whisper_full _ _ _ _ _
  | whisper_full_n_segments _ _
  | whisper_full_get_segment_text _ _ _
  | whisper_print_system_info _ => true
  | _ => false
  end.

(** A question about the segments of the last inference. *)
Definition segment_query c : bool :=
  match c with
  | whisper_full_n_segments _ _
  | whisper_full_get_segment_text _ _ _ => true
  | _ => false
  end.

(** An inference that returned [0]. *)
Definition full_succeeded c : bool :=
  match c with
  | whisper_full _ _ _ _ rc => rc =? 0
  | _ => false
  end.

Definition context_freed c : bool :=
  match c with
  | whisper_free _ => true
  | _ => false
  end.

(** A model that the library loaded: [whisper_init...] returned a
    context other than [NULL]. *)
Definition context_obtained c : bool :=
  match c with
  | whisper_init_from_file_with_params _ _ ctx => negb (ctx =? 0)
  | _ => false
  end.

(** The calls that follow the first call of a kind. *)
Fixpoint after (kind : call CParams Other -> bool) t : list (call CParams Other) :=
  match t with
  | [] => []
  | c :: rest => if kind c then rest else after kind rest
  end.

(** The calls made before the first inference, all of them when there is
    none. *)
Fixpoint before_full t : list (call CParams Other) :=
  match t with
  | [] => []
  | c :: rest => if is_full c then [] else c :: before_full rest
  end.

(** The segments are asked for only once an inference has returned [0]:
    no question about them comes before the inference, and none at all
    when no inference returned [0]. *)
Definition segments_follow_success t : Prop :=
  Forall (fun c => segment_query c = false) (before_full t) /\
  (count full_succeeded t = 0%nat -> count segment_query t = 0%nat).

End Measures.

(** * Properties *)

(** ** The model at work *)

Example reader_two_samples :
  result (@read_wav_file unit unit unit "a.wav" []) Demo.w0
  = Returns (true, [pcm16_to_f32 (-32768); pcm16_to_f32 32767]).
Proof. reflexivity. Qed.

Example reader_missing_file :
  @read_wav_file unit unit unit "b.wav" [] Demo.w0
  = (Returns (false, []), Demo.w0,
     [error "Failed to open audio file: %s" [Log.Str "b.wav"]]).
Proof. reflexivity. Qed.

(** Three bytes announced and present: the third is written past the one
    sample the vector holds. With two of them present, the second [read]
    stops at the end of the vector. *)
Example reader_odd_size :
  result (@read_wav_file unit unit unit "odd.wav" []) Files.w = Undefined /\
  result (@read_wav_file unit unit unit "odd_cut.wav" []) Files.w
  = Returns (true, [pcm16_to_f32 (-32768)]).
Proof. split; reflexivity. Qed.

(** One byte announced and present: it is written to an empty vector.
    The trace is what [transcribe] has done until then. *)
Example reader_one_byte :
  result (@read_wav_file unit unit unit "one.wav" []) Files.w = Undefined /\
  trace (transcribe Abi.arm64_v8a (Demo.lib true true 4096 0 []) 4096 "one.wav") Files.w
  = [GetStringUTFChars "one.wav" (Some "one.wav");
     info "Transcribing audio file: %s" [Log.Str "one.wav"]].
Proof. split; reflexivity. Qed.

(** The header of the file read stays on the stack. *)
Example reader_leaves_header :
  map (stack (final (@read_wav_file unit unit unit "a.wav" []) Demo.w0)) (seq 0 44)
  = firstn 44 Demo.wav.
Proof. reflexivity. Qed.

Example lowest_sample :
  pcm16_to_f32 (-32768) = S754_finite true 8388608 (-23) /\
  option_map (Qeq_bool (-1)) (F32.to_Q (pcm16_to_f32 (-32768))) = Some true.
Proof. split; reflexivity. Qed.

Example highest_sample :
  option_map (Qeq_bool (32767 # 32768)) (F32.to_Q (pcm16_to_f32 32767)) = Some true.
Proof. reflexivity. Qed.

Example transcribe_two_segments :
  result (transcribe Abi.arm64_v8a (Demo.lib true true 4096 0 ["Hello"; "world"])
            4096 "a.wav") Demo.w0 = Returns "Hello world".
Proof. reflexivity. Qed.

Example transcribe_no_segment :
  result (transcribe Abi.arm64_v8a (Demo.lib true true 4096 0 []) 4096 "a.wav") Demo.w0
  = Returns "".
Proof. reflexivity. Qed.

Example transcribe_missing_file :
  result (transcribe Abi.arm64_v8a (Demo.lib true true 4096 0 []) 4096 "b.wav") Demo.w0
  = Returns "Error: Failed to read audio file".
Proof. reflexivity. Qed.

Example from_array_one_sample :
  trace (transcribeFromFloatArray Abi.arm64_v8a (Demo.lib true true 4096 3 []) 4096 1%nat)
        Demo.w0
  = [GetArrayLength 1%nat 1;
     GetFloatArrayElements 1%nat (Some [F32.c32768]);
     whisper_full_default_params Whisper.WHISPER_SAMPLING_GREEDY Demo.default_params;
     whisper_full 4096 (configure Demo.default_params) [F32.c32768] 1 3;
     ReleaseFloatArrayElements 1%nat [F32.c32768] Jni.JNI_ABORT;
     error "Whisper transcription failed with code: %d" [Log.Int 3];
     NewStringUTF "Error: Transcription failed"].
Proof. reflexivity. Qed.

Example free_high_pointer :
  Abi.ptr_to_jlong Abi.arm64_v8a (2 ^ 64 - 16) = -16 /\
  trace (freeContext Abi.arm64_v8a (Demo.lib true true 0 0 []) (-16)) Demo.w0
  = [whisper_free (2 ^ 64 - 16); info "Whisper context freed" []].
Proof. split; reflexivity. Qed.

(** ** Bytes and buffers *)

Lemma u8_range (b : byte) : 0 <= Mem.u8 b <= 255.
Proof.
  unfold Mem.u8. pose proof (Byte.to_N_bounded b) as Hb. lia.
Qed.

Lemma lor_shifted (k x y : Z) :
  0 <= k -> 0 <= x < 2 ^ k -> 0 <= y -> Z.lor x (y * 2 ^ k) = x + 2 ^ k * y.
Proof.
  intros Hk Hx Hy.
  rewrite <- Z.shiftl_mul_pow2 by lia.
  rewrite <- Z.add_nocarry_lor.
  - rewrite Z.shiftl_mul_pow2 by lia. lia.
  - apply Z.bits_inj'. intros n Hn. rewrite Z.land_spec, Z.bits_0.
    destruct (Z.lt_ge_cases n k) as [Hlt | Hge].
    + rewrite Z.shiftl_spec_low by lia. apply andb_false_r.
    + destruct (Z.eq_dec x 0) as [-> | Hx0].
      * rewrite Z.bits_0. reflexivity.
      * rewrite (Z.bits_above_log2 x n); [ reflexivity | lia | ].
        apply Z.lt_le_trans with k; [ apply Z.log2_lt_pow2; lia | lia ].
Qed.

(** [load_u32] is the little-endian value of the four bytes. *)
Lemma load_u32_le (b0 b1 b2 b3 : byte) :
  Mem.load_u32 b0 b1 b2 b3 =
  Mem.u8 b0 + 2 ^ 8 * Mem.u8 b1 + 2 ^ 16 * Mem.u8 b2 + 2 ^ 24 * Mem.u8 b3.
Proof.
  unfold Mem.load_u32.
  pose proof (u8_range b0) as H0. pose proof (u8_range b1) as H1.
  pose proof (u8_range b2) as H2. pose proof (u8_range b3) as H3.
  rewrite !Z.shiftl_mul_pow2 by lia.
  rewrite (lor_shifted 24) by lia.
  replace (Mem.u8 b2 * 2 ^ 16 + 2 ^ 24 * Mem.u8 b3)
    with ((Mem.u8 b2 + 2 ^ 8 * Mem.u8 b3) * 2 ^ 16) by lia.
  rewrite (lor_shifted 16) by lia.
  replace (Mem.u8 b1 * 2 ^ 8 + 2 ^ 16 * (Mem.u8 b2 + 2 ^ 8 * Mem.u8 b3))
    with ((Mem.u8 b1 + 2 ^ 8 * Mem.u8 b2 + 2 ^ 16 * Mem.u8 b3) * 2 ^ 8) by lia.
  rewrite (lor_shifted 8) by lia.
  lia.
Qed.

Lemma load_u32_range (b0 b1 b2 b3 : byte) : 0 <= Mem.load_u32 b0 b1 b2 b3 < 2 ^ 32.
Proof.
  rewrite load_u32_le.
  pose proof (u8_range b0). pose proof (u8_range b1).
  pose proof (u8_range b2). pose proof (u8_range b3). lia.
Qed.

(** [load_i16] is the two's-complement value of the two bytes. *)
Lemma load_i16_le (b0 b1 : byte) :
  Mem.load_i16 b0 b1 = Abi.signed 16 (Mem.u8 b0 + 2 ^ 8 * Mem.u8 b1).
Proof.
  unfold Mem.load_i16, Abi.signed.
  pose proof (u8_range b0). pose proof (u8_range b1).
  rewrite Z.shiftl_mul_pow2, (lor_shifted 8) by lia.
  rewrite Z.mod_small by lia. reflexivity.
Qed.

Lemma load_i16_range (b0 b1 : byte) : -32768 <= Mem.load_i16 b0 b1 <= 32767.
Proof.
  rewrite load_i16_le. unfold Abi.signed.
  pose proof (u8_range b0). pose proof (u8_range b1).
  rewrite Z.mod_small by lia.
  destruct (Z.ltb_spec (Mem.u8 b0 + 2 ^ 8 * Mem.u8 b1) (2 ^ (16 - 1))); lia.
Qed.

Lemma overwrite_length (dst src : list byte) :
  length (Mem.overwrite dst src) = length dst.
Proof.
  unfold Mem.overwrite.
  rewrite length_firstn, length_app, length_skipn. lia.
Qed.

(** A byte of an overwritten buffer comes from the source where the
    source reaches, and is the old byte elsewhere. *)
Lemma byte_at_overwrite (dst src : list byte) (i : nat) :
  (i < length dst)%nat ->
  Mem.byte_at (Mem.overwrite dst src) i =
  if (i <? length src)%nat then Mem.byte_at src i else Mem.byte_at dst i.
Proof.
  intros Hi. unfold Mem.byte_at, Mem.overwrite.
  rewrite nth_firstn.
  destruct (Nat.ltb_spec i (length dst)) as [_ | Hge]; [ | lia ].
  destruct (Nat.ltb_spec i (length src)) as [Hlt | Hge].
  - now rewrite app_nth1.
  - rewrite app_nth2, nth_skipn by lia. f_equal. lia.
Qed.

Lemma store_fits (dst src : list byte) :
  (length src <= length dst)%nat -> Mem.store dst src = Some (Mem.overwrite dst src).
Proof.
  intros H. unfold Mem.store.
  destruct (Nat.leb_spec (length src) (length dst)); [ reflexivity | lia ].
Qed.

Lemma as_i16_length (buf : list byte) (k : nat) :
  length buf = (2 * k)%nat -> length (Mem.as_i16 buf) = k.
Proof.
  revert buf. induction k as [ | k IH ]; intros buf Hlen.
  - destruct buf; [ reflexivity | discriminate ].
  - destruct buf as [ | b0 [ | b1 rest ] ]; simpl in Hlen; try lia.
    simpl. f_equal. apply IH. lia.
Qed.

Lemma as_i16_nth (buf : list byte) (k i : nat) :
  length buf = (2 * k)%nat -> (i < k)%nat ->
  nth_error (Mem.as_i16 buf) i =
  Some (Mem.load_i16 (Mem.byte_at buf (2 * i)) (Mem.byte_at buf (2 * i + 1))).
Proof.
  revert buf i. induction k as [ | k IH ]; intros buf i Hlen Hi; [ lia | ].
  destruct buf as [ | b0 [ | b1 rest ] ]; simpl in Hlen; try lia.
  destruct i as [ | i ]; [ reflexivity | ].
  change (Mem.as_i16 (b0 :: b1 :: rest)) with (Mem.load_i16 b0 b1 :: Mem.as_i16 rest).
  cbn [nth_error]. rewrite (IH rest i) by lia.
  unfold Mem.byte_at.
  replace (2 * S i)%nat with (S (S (2 * i))) by lia.
  replace (S (S (2 * i)) + 1)%nat with (S (S (2 * i + 1))) by lia.
  reflexivity.
Qed.

(** ** binary32: the conversion of a sample is exact *)

Lemma all_bytes_complete (b : byte) : In b Mem.all_bytes.
Proof.
  unfold Mem.all_bytes. apply in_flat_map.
  exists (N.to_nat (Byte.to_N b)). split.
  - apply in_seq. pose proof (Byte.to_N_bounded b). lia.
  - rewrite N2Nat.id, Byte.of_to_N. now left.
Qed.

Lemma exact_sample_all :
  forallb (fun b0 => forallb (exact_sample b0) Mem.all_bytes) Mem.all_bytes = true.
Proof. vm_compute. reflexivity. Qed.

Lemma pcm16_to_f32_exact (b0 b1 : byte) :
  exists q, F32.to_Q (pcm16_to_f32 (Mem.load_i16 b0 b1)) = Some q /\
            (q == Mem.load_i16 b0 b1 # 32768)%Q.
Proof.
  pose proof exact_sample_all as Hall.
  rewrite forallb_forall in Hall.
  specialize (Hall b0 (all_bytes_complete b0)).
  rewrite forallb_forall in Hall.
  specialize (Hall b1 (all_bytes_complete b1)).
  unfold exact_sample in Hall.
  destruct (F32.to_Q (pcm16_to_f32 (Mem.load_i16 b0 b1))) as [q | ]; [ | discriminate ].
  exists q. split; [ reflexivity | now apply Qeq_bool_iff ].
Qed.

(** The literal [32768.0f] is the conversion of [32768]. *)
Lemma c32768_of_int : F32.c32768 = F32.of_int 32768.
Proof. reflexivity. Qed.

(** ** read_wav_file *)

Section ReaderFacts.

Context {CParams Other Ext : Type}.

Implicit Types (w : world Ext) (c : list byte) (pcm : list F32.t).

Abbreviation reader := (@read_wav_file CParams Other Ext).

Lemma read_open (n : nat) c :
  Ifstream.read n (Ifstream.open c) =
  (firstn n c,
   {| Ifstream.bytes := c;
      Ifstream.pos := length (firstn n c);
      Ifstream.fail := negb (length (firstn n c) =? n)%nat |}).
Proof. reflexivity. Qed.

Lemma header_of_file w c (i : nat) :
  (i < 44)%nat -> (i < length c)%nat ->
  Mem.byte_at (header_of w c) i = Mem.byte_at c i.
Proof.
  intros H44 Hc. unfold header_of. rewrite read_open. cbn [fst].
  rewrite byte_at_overwrite by (rewrite length_map, length_seq; exact H44).
  rewrite length_firstn.
  destruct (Nat.ltb_spec i (Init.Nat.min 44 (length c))) as [_ | Hge]; [ | lia ].
  unfold Mem.byte_at. rewrite nth_firstn.
  destruct (Nat.ltb_spec i 44); [ reflexivity | lia ].
Qed.

Lemma header_of_stack w c (i : nat) :
  (i < 44)%nat -> (length c <= i)%nat ->
  Mem.byte_at (header_of w c) i = stack w i.
Proof.
  intros H44 Hc. unfold header_of. rewrite read_open. cbn [fst].
  rewrite byte_at_overwrite by (rewrite length_map, length_seq; exact H44).
  rewrite length_firstn.
  destruct (Nat.ltb_spec i (Init.Nat.min 44 (length c))) as [Hlt | _]; [ lia | ].
  unfold Mem.byte_at.
  rewrite (nth_indep _ x00 (stack w 0)) by (rewrite length_map, length_seq; exact H44).
  rewrite map_nth, seq_nth by exact H44. reflexivity.
Qed.

Lemma header_of_length w c : length (header_of w c) = 44%nat.
Proof. unfold header_of. now rewrite overwrite_length, length_map, length_seq. Qed.

Lemma bad_magic_false (header : list byte) :
  bad_magic header = false <->
  Mem.byte_at header 0 = "R"%byte /\ Mem.byte_at header 1 = "I"%byte /\
  Mem.byte_at header 2 = "F"%byte /\ Mem.byte_at header 3 = "F"%byte.
Proof.
  unfold bad_magic. rewrite !orb_false_iff, !negb_false_iff.
  split.
  - intros [[[H0 H1] H2] H3]. repeat split; now apply Byte.byte_dec_bl.
  - intros (H0 & H1 & H2 & H3). repeat split; now apply Byte.byte_dec_lb.
Qed.

(** For a file of at least four bytes, the magic tested is the first
    four bytes of the file. *)
Lemma magic_of_file w c :
  (4 <= length c)%nat ->
  (bad_magic (header_of w c) = false <-> firstn 4 c = riff).
Proof.
  intros Hlen. rewrite bad_magic_false.
  rewrite !header_of_file by lia.
  destruct c as [ | b0 [ | b1 [ | b2 [ | b3 rest ] ] ] ]; simpl in Hlen; try lia.
  unfold Mem.byte_at, riff. cbn [nth firstn].
  split.
  - intros (-> & -> & -> & ->). reflexivity.
  - intros H. injection H as -> -> -> ->. repeat split.
Qed.

(** The second [read] stores nothing after a first [read] that came
    short, and otherwise the bytes that follow the header, as many as
    asked for or as the file has. *)
Lemma data_of_spec w c :
  data_of w c =
  if (44 <=? length c)%nat
  then firstn (Z.to_nat (data_size_of (header_of w c))) (skipn 44 c)
  else [].
Proof.
  unfold data_of. rewrite read_open. cbn [snd].
  unfold Ifstream.read. cbn [Ifstream.fail Ifstream.pos Ifstream.bytes].
  rewrite length_firstn.
  destruct (Nat.leb_spec 44 (length c)) as [Hge | Hlt].
  - rewrite Nat.min_l by lia. rewrite Nat.eqb_refl. reflexivity.
  - rewrite Nat.min_r by lia.
    destruct (Nat.eqb_spec (length c) 44); [ lia | reflexivity ].
Qed.

(** A file that holds a whole header has its data size read from its
    bytes 40 to 43. *)
Lemma data_size_of_file w c :
  (44 <= length c)%nat -> data_size_of (header_of w c) = data_size_of c.
Proof. intros Hlen. unfold data_size_of. now rewrite !header_of_file by lia. Qed.

Lemma data_size_range (h : list byte) : 0 <= data_size_of h < 2 ^ 32.
Proof. apply load_u32_range. Qed.

Lemma data_size_halves (h : list byte) :
  (2 * Z.to_nat (data_size_of h / 2) <= Z.to_nat (data_size_of h))%nat.
Proof.
  pose proof (data_size_range h) as Hr.
  pose proof (Z.mul_div_le (data_size_of h) 2 ltac:(lia)).
  pose proof (Z.div_pos (data_size_of h) 2 ltac:(lia) ltac:(lia)). lia.
Qed.

(** A byte the second [read] stores is the byte of the file 44 places
    further; where it stores none within the data size, the file has
    ended. *)
Lemma data_of_at w c (j : nat) :
  (j < Z.to_nat (data_size_of (header_of w c)))%nat ->
  (if (j <? length (data_of w c))%nat then Mem.byte_at (data_of w c) j else x00)
  = Mem.byte_at c (44 + j).
Proof.
  intros Hj. rewrite data_of_spec.
  destruct (Nat.leb_spec 44 (length c)) as [Hge | Hlt].
  - rewrite length_firstn, length_skipn. unfold Mem.byte_at.
    destruct (Nat.ltb_spec j (Init.Nat.min (Z.to_nat (data_size_of (header_of w c)))
                                           (length c - 44))) as [Hin | Hout].
    + rewrite nth_firstn.
      destruct (Nat.ltb_spec j (Z.to_nat (data_size_of (header_of w c)))); [ | lia ].
      now rewrite nth_skipn.
    + symmetry. apply nth_overflow. lia.
  - cbn [length]. destruct (Nat.ltb_spec j 0); [ lia | ].
    unfold Mem.byte_at. symmetry. apply nth_overflow. lia.
Qed.

(** What the reader does with a file it could open: the result, the
    world it leaves and the lines it logs. *)
Lemma read_wav_file_opens w f pcm c :
  files w f = Some c ->
  reader f pcm w =
  (if bad_magic (header_of w c) then Returns (false, pcm)
   else match Mem.store (repeat x00 (2 * Z.to_nat (data_size_of (header_of w c) / 2)))
                        (data_of w c) with
        | Some buf => Returns (true, map pcm16_to_f32 (Mem.as_i16 buf))
        | None => Undefined
        end,
   with_stack w (Mem.write (stack w) (header_of w c)),
   if bad_magic (header_of w c) then [error "Not a valid WAV file" []] else []).
Proof.
  intros Hf. unfold read_wav_file. rewrite Hf.
  cbv zeta. fold (header_of w c). fold (data_of w c).
  destruct (bad_magic (header_of w c)); [ reflexivity | ].
  destruct (Mem.store _ (data_of w c)); reflexivity.
Qed.

(** A file that cannot be opened is refused, and [pcmf32] is left as
    it was. *)
Lemma read_wav_file_unopenable w f pcm :
  files w f = None ->
  reader f pcm w =
  (Returns (false, pcm), w, [error "Failed to open audio file: %s" [Log.Str f]]).
Proof. intros Hf. unfold read_wav_file. rewrite Hf. reflexivity. Qed.

(** The reader changes nothing but the stack. *)
Lemma read_wav_file_final w f pcm :
  ext (final (reader f pcm) w) = ext w /\
  heap (final (reader f pcm) w) = heap w /\
  files (final (reader f pcm) w) = files w.
Proof.
  unfold final. destruct (files w f) as [c | ] eqn:Hf.
  - rewrite (read_wav_file_opens w f pcm c Hf). repeat split.
  - rewrite (read_wav_file_unopenable w f pcm Hf). repeat split.
Qed.

Lemma read_wav_file_trace w f pcm :
  trace (reader f pcm) w = [] \/
  exists fmt args,
    trace (reader f pcm) w =
    [android_log_print Log.ANDROID_LOG_ERROR Log.TAG fmt args].
Proof.
  unfold trace. destruct (files w f) as [c | ] eqn:Hf.
  - rewrite (read_wav_file_opens w f pcm c Hf). cbn [snd].
    destruct (bad_magic (header_of w c)); [ right; eexists _, _ | left ]; reflexivity.
  - rewrite (read_wav_file_unopenable w f pcm Hf). right. eexists _, _. reflexivity.
Qed.

(** A refusal leaves the vector as it was and logs one error line; the
    file could not be opened, or [header] does not start with "RIFF". *)
Lemma read_wav_file_refusal w f pcm v :
  result (reader f pcm) w = Returns (false, v) ->
  v = pcm /\
  (exists fmt args, trace (reader f pcm) w = [error fmt args]) /\
  (forall c, files w f = Some c -> bad_magic (header_of w c) = true).
Proof.
  unfold result, trace. destruct (files w f) as [c | ] eqn:Hf.
  - rewrite (read_wav_file_opens w f pcm c Hf). cbn [fst snd].
    destruct (bad_magic (header_of w c)) eqn:Hb.
    + intros H. injection H as <-.
      split; [ reflexivity | ]. split; [ eexists _, _; reflexivity | ].
      intros c' Hc'. injection Hc' as <-. exact Hb.
    + destruct (Mem.store _ _); discriminate.
  - rewrite (read_wav_file_unopenable w f pcm Hf). cbn [fst snd].
    intros H. injection H as <-.
    split; [ reflexivity | ]. split; [ eexists _, _; reflexivity | discriminate ].
Qed.

(** An accepted file could be opened, [header] starts with "RIFF", what
    the second [read] stored fits the vector, nothing is logged, and the
    samples are the elements of the vector, converted. *)
Lemma read_wav_file_acceptance w f pcm samples :
  result (reader f pcm) w = Returns (true, samples) ->
  exists c,
    files w f = Some c /\
    bad_magic (header_of w c) = false /\
    (length (data_of w c) <= 2 * Z.to_nat (data_size_of (header_of w c) / 2))%nat /\
    trace (reader f pcm) w = [] /\
    samples =
    map pcm16_to_f32
      (Mem.as_i16 (Mem.overwrite
                     (repeat x00 (2 * Z.to_nat (data_size_of (header_of w c) / 2)))
                     (data_of w c))).
Proof.
  unfold result, trace. destruct (files w f) as [c | ] eqn:Hf.
  - rewrite (read_wav_file_opens w f pcm c Hf). cbn [fst snd].
    destruct (bad_magic (header_of w c)) eqn:Hb; [ discriminate | ].
    unfold Mem.store. rewrite repeat_length.
    destruct (Nat.leb_spec (length (data_of w c))
                (2 * Z.to_nat (data_size_of (header_of w c) / 2))) as [Hfit | Hover];
      [ | discriminate ].
    intros H. injection H as <-.
    exact (ex_intro _ c (conj eq_refl (conj Hb (conj Hfit (conj eq_refl eq_refl))))).
  - rewrite (read_wav_file_unopenable w f pcm Hf). discriminate.
Qed.

(** The call is undefined exactly when the file opens, [header] starts
    with "RIFF" and the second [read] stores more than the vector holds;
    nothing has been logged then. *)
Lemma read_wav_file_undefined w f pcm :
  result (reader f pcm) w = Undefined <->
  exists c,
    files w f = Some c /\
    bad_magic (header_of w c) = false /\
    (2 * Z.to_nat (data_size_of (header_of w c) / 2) < length (data_of w c))%nat.
Proof.
  unfold result. destruct (files w f) as [c | ] eqn:Hf.
  - rewrite (read_wav_file_opens w f pcm c Hf). cbn [fst].
    destruct (bad_magic (header_of w c)) eqn:Hb.
    + split; [ discriminate | ].
      intros (c' & Hc' & Hb' & _). injection Hc' as <-. congruence.
    + unfold Mem.store. rewrite repeat_length.
      destruct (Nat.leb_spec (length (data_of w c))
                  (2 * Z.to_nat (data_size_of (header_of w c) / 2))) as [Hfit | Hover].
      * split; [ discriminate | ].
        intros (c' & Hc' & _ & Hlt). injection Hc' as <-. lia.
      * split; [ | reflexivity ]. intros _.
        exact (ex_intro _ c (conj eq_refl (conj Hb Hover))).
  - rewrite (read_wav_file_unopenable w f pcm Hf). cbn [fst].
    split; [ discriminate | ]. intros (c' & Hc' & _). discriminate.
Qed.

Lemma read_wav_file_undefined_trace w f pcm :
  result (reader f pcm) w = Undefined -> trace (reader f pcm) w = [].
Proof.
  intros H. apply read_wav_file_undefined in H. destruct H as (c & Hf & Hb & _).
  unfold trace. rewrite (read_wav_file_opens w f pcm c Hf). cbn [snd].
  now rewrite Hb.
Qed.

(** Sample [i] of an accepted file is made of its bytes [44 + 2 i] and
    [44 + 2 i + 1], and there are half the data size of them. *)
Lemma read_wav_file_sample w f pcm c samples :
  files w f = Some c ->
  result (reader f pcm) w = Returns (true, samples) ->
  length samples = Z.to_nat (data_size_of (header_of w c) / 2) /\
  forall i : nat,
    (i < length samples)%nat ->
    nth_error samples i =
    Some (pcm16_to_f32 (Mem.load_i16 (Mem.byte_at c (44 + 2 * i))
                                     (Mem.byte_at c (44 + 2 * i + 1)))).
Proof.
  intros Hf Hok.
  destruct (read_wav_file_acceptance w f pcm samples Hok)
    as (c' & Hf' & _ & Hfit & _ & ->).
  rewrite Hf in Hf'. injection Hf' as <-.
  set (k := Z.to_nat (data_size_of (header_of w c) / 2)) in *.
  assert (Hbuf : length (Mem.overwrite (repeat x00 (2 * k)) (data_of w c)) = (2 * k)%nat)
    by now rewrite overwrite_length, repeat_length.
  rewrite length_map, (as_i16_length _ _ Hbuf).
  split; [ reflexivity | ].
  intros i Hi.
  rewrite nth_error_map, (as_i16_nth _ _ i Hbuf Hi). cbn [option_map].
  pose proof (data_size_halves (header_of w c)) as Hhalf. fold k in Hhalf.
  assert (Hbyte : forall j, (j < 2 * k)%nat ->
            Mem.byte_at (Mem.overwrite (repeat x00 (2 * k)) (data_of w c)) j
            = Mem.byte_at c (44 + j)).
  { intros j Hj. rewrite byte_at_overwrite by (rewrite repeat_length; exact Hj).
    rewrite <- (data_of_at w c j) by lia.
    destruct (Nat.ltb_spec j (length (data_of w c))); [ reflexivity | ].
    unfold Mem.byte_at. apply nth_repeat. }
  rewrite !Hbyte by lia.
  replace (44 + 2 * i + 1)%nat with (44 + (2 * i + 1))%nat by lia.
  reflexivity.
Qed.

End ReaderFacts.

(** ** Strings *)

Lemma append_nil_r (s : string) : (s ++ "")%string = s.
Proof.
  induction s as [ | a s IH ]; [ reflexivity | ].
  change (String a (s ++ "")%string = String a s). now rewrite IH.
Qed.

Lemma append_assoc (s1 s2 s3 : string) :
  ((s1 ++ s2) ++ s3)%string = (s1 ++ (s2 ++ s3))%string.
Proof.
  induction s1 as [ | a s1 IH ]; [ reflexivity | ].
  change (String a ((s1 ++ s2) ++ s3)%string = String a (s1 ++ (s2 ++ s3))%string).
  now rewrite IH.
Qed.

Lemma concat_cons (sep x : string) (l : list string) :
  l <> [] -> String.concat sep (x :: l) = (x ++ sep ++ String.concat sep l)%string.
Proof. destruct l; [ congruence | reflexivity ]. Qed.

(** ** The entry points *)

Section BridgeFacts.

Context {CParams Other Ext : Type}.
Variable abi : Abi.t.
Variable env : externals CParams Other Ext.

Implicit Types (w : world Ext) (ctx : Abi.ptr) (t : list (call CParams Other)).

Abbreviation reader := (@read_wav_file CParams Other Ext).

Lemma same_memory_refl w : same_memory w w.
Proof. repeat split. Qed.

Lemma segment_texts_calls ctx (l : list (Z * string)) :
  segment_texts (map (segment_call (CParams := CParams) (Other := Other) ctx) l) = l.
Proof.
  induction l as [ | [i s] l IH ]; [ reflexivity | ].
  cbn. unfold segment_texts in IH. now rewrite IH.
Qed.

(** The loop fetches the segments [i], ..., [n_segments - 1] in order
    and appends their texts, a space between two of them. Any fuel of at
    least [n_segments - i] gives this result. *)
Lemma collect_segments_spec (fuel : nat) ctx (n i : Z) (acc : string) w :
  (Z.to_nat (n - i) <= fuel)%nat ->
  exists texts : list string,
    length texts = Z.to_nat (n - i) /\
    result (collect_segments env fuel ctx n i acc) w =
      (acc ++ String.concat " " texts)%string /\
    trace (collect_segments env fuel ctx n i acc) w =
      map (segment_call ctx) (combine (upfrom i (Z.to_nat (n - i))) texts) /\
    same_memory w (final (collect_segments env fuel ctx n i acc) w).
Proof.
  revert i acc w. induction fuel as [ | fuel IH ]; intros i acc w Hfuel.
  - exists []. replace (Z.to_nat (n - i)) with 0%nat by lia.
    refine (conj eq_refl (conj _ (conj eq_refl (same_memory_refl w)))).
    symmetry. apply append_nil_r.
  - cbn [collect_segments].
    destruct (Z.ltb_spec i n) as [Hlt | Hge].
    + set (r := ext_full_get_segment_text env ctx i (ext w)).
      set (acc' := if i <? n - 1 then ((acc ++ fst r) ++ " ")%string
                   else (acc ++ fst r)%string).
      destruct (IH (i + 1) acc' (with_ext w (snd r)) ltac:(lia))
        as (texts & Hlen & Hres & Htr & Hmem).
      exists (fst r :: texts).
      replace (Z.to_nat (n - i)) with (S (Z.to_nat (n - (i + 1)))) by lia.
      unfold result, trace, final in *.
      unfold bind, lib_full_get_segment_text, ask.
      fold r. cbn [fst snd]. fold acc'.
      destruct (collect_segments env fuel ctx n (i + 1) acc' (with_ext w (snd r)))
        as [[res w2] t2].
      cbn [fst snd] in *. subst res t2. cbn [length upfrom combine map app].
      refine (conj _ (conj _ (conj eq_refl Hmem))); [ now rewrite Hlen | ].
      subst acc'. destruct (Z.ltb_spec i (n - 1)) as [Hlt1 | Hge1].
      * rewrite concat_cons by (destruct texts; [ simpl in Hlen; lia | discriminate ]).
        now rewrite !append_assoc.
      * destruct texts; [ | simpl in Hlen; lia ].
        cbn. now rewrite append_nil_r.
    + exists []. replace (Z.to_nat (n - i)) with 0%nat by lia.
      refine (conj eq_refl (conj _ (conj eq_refl (same_memory_refl w)))).
      symmetry. apply append_nil_r.
Qed.

Lemma collect_transcription_runs (announce : bool) ctx w :
  exists (n : Z) (texts : list string),
    length texts = Z.to_nat n /\
    result (collect_transcription env announce ctx) w = String.concat " " texts /\
    trace (collect_transcription env announce ctx) w = collecting announce ctx n texts /\
    same_memory w (final (collect_transcription env announce ctx) w).
Proof.
  set (r := ext_full_n_segments env ctx (ext w)).
  destruct (collect_segments_spec (Z.to_nat (fst r)) ctx (fst r) 0 ""
              (with_ext w (snd r)) ltac:(lia))
    as (texts & Hlen & Hres & Htr & Hmem).
  replace (fst r - 0) with (fst r) in * by lia.
  exists (fst r), texts.
  unfold result, trace, final in *.
  unfold collect_transcription, collecting, bind, lib_full_n_segments, ask.
  fold r. cbn [fst snd].
  destruct announce; cbn [fst snd LOGI record ret app env_NewStringUTF bind];
    destruct (collect_segments env (Z.to_nat (fst r)) ctx (fst r) 0 "" (with_ext w (snd r)))
      as [[res w2] t2];
    cbn [fst snd] in *; subst res t2;
    refine (conj Hlen (conj eq_refl (conj _ Hmem)));
    rewrite ?app_nil_r; reflexivity.
Qed.

(** The reader looks at the files and at the stack only, and changes
    nothing but the stack. *)
Lemma read_wav_file_with_ext w (e : Ext) (f : string) (pcm : list F32.t) :
  result (reader f pcm) (with_ext w e) = result (reader f pcm) w /\
  trace (reader f pcm) (with_ext w e) = trace (reader f pcm) w /\
  same_store w (final (reader f pcm) (with_ext w e)).
Proof.
  unfold result, trace, final, same_store.
  destruct (files w f) as [c | ] eqn:Hf.
  - rewrite (read_wav_file_opens (CParams := CParams) (Other := Other)
               (with_ext w e) f pcm c Hf),
            (read_wav_file_opens (CParams := CParams) (Other := Other) w f pcm c Hf).
    repeat split.
  - rewrite (read_wav_file_unopenable (CParams := CParams) (Other := Other)
               (with_ext w e) f pcm Hf),
            (read_wav_file_unopenable (CParams := CParams) (Other := Other) w f pcm Hf).
    repeat split.
Qed.

Lemma read_wav_file_accepted_trace w (f : string) (pcm samples : list F32.t) :
  result (reader f pcm) w = Returns (true, samples) -> trace (reader f pcm) w = [].
Proof.
  intros H. destruct (read_wav_file_acceptance w f pcm samples H) as (c & _ & _ & _ & Ht & _).
  exact Ht.
Qed.

Ltac memory :=
  unfold same_memory, same_store in *;
  cbn [heap files stack with_ext with_heap with_stack] in *;
  auto.

Ltac run_step :=
  unfold result, trace, final, env_GetStringUTFChars, env_ReleaseStringUTFChars,
    env_NewStringUTF, env_GetArrayLength, env_GetFloatArrayElements,
    env_ReleaseFloatArrayElements, lib_context_default_params,
    lib_init_from_file_with_params, lib_free, lib_full_default_params, lib_full,
    returning, LOGE, LOGI, ask, record, ret, bind;
  cbn [fst snd app negb ext with_ext].

(** [initContext] runs along one of its three paths. *)
Lemma initContext_runs (modelPath : Jni.jstring) w :
  initContext_run abi modelPath
    (result (initContext abi env modelPath) w)
    (trace (initContext abi env modelPath) w).
Proof.
  unfold initContext. run_step.
  destruct (fst (ext_GetStringUTFChars env modelPath (ext w))) as [chars | ];
    run_step; [ | apply init_no_path ].
  match goal with |- context [ ?p =? 0 ] => destruct (Z.eqb_spec p 0) as [Hz | Hnz] end;
    run_step.
  - rewrite Hz. apply init_failed.
  - now apply init_done.
Qed.

(** [transcribe] runs along one of its six paths. *)
Lemma transcribe_runs (contextPtr : Abi.jlong) (audioPath : Jni.jstring) w :
  transcribe_run abi contextPtr audioPath w
    (result (transcribe abi env contextPtr audioPath) w)
    (trace (transcribe abi env contextPtr audioPath) w)
    (final (transcribe abi env contextPtr audioPath) w).
Proof.
  unfold transcribe.
  destruct (Z.eqb_spec contextPtr 0) as [Hz | Hnz]; [ now apply transcribe_null | ].
  run_step.
  set (r1 := ext_GetStringUTFChars env audioPath (ext w)).
  destruct (fst r1) as [chars | ]; run_step;
    [ | apply transcribe_no_path; [ exact Hnz | memory ] ].
  destruct (read_wav_file_with_ext w (snd r1) chars []) as (Hres & Htr & Hfin).
  unfold result, trace, final in Hres, Htr, Hfin.
  destruct (read_wav_file chars [] (with_ext w (snd r1))) as [[r w1] t1].
  cbn [fst snd] in *. subst t1.
  assert (Hread : result (reader chars []) w = r) by (symmetry; exact Hres).
  destruct r as [[ok pcm] | ]; [ destruct ok | ]; run_step.
  - set (r2 := ext_full_default_params env Whisper.WHISPER_SAMPLING_GREEDY (ext w1)).
    match goal with |- context [ext_full ?e ?c ?p ?s ?n ?x] =>
      set (r3 := ext_full e c p s n x) end.
    assert (Hempty : snd (reader chars [] w) = [])
      by (apply (read_wav_file_accepted_trace w chars [] pcm); exact Hread).
    rewrite Hempty. cbn [app].
    destruct (Z.eqb_spec (fst r3) 0) as [Hrc | Hrc]; run_step.
    + match goal with |- context [collect_transcription ?e ?b ?c ?x] =>
        destruct (collect_transcription_runs b c x)
          as (n & texts & Hlen & Hct & Htt & Hmem);
        unfold result, trace, final in Hct, Htt, Hmem;
        destruct (collect_transcription e b c x) as [[res w4] t4] end.
      cbn [fst snd] in *. subst res t4. rewrite Hrc, app_nil_r.
      apply (transcribe_done abi contextPtr audioPath w chars pcm (fst r2) n texts w4);
        [ exact Hnz | | exact Hread | exact Hlen ].
      memory. destruct Hmem as (Hh & Hfs & _), Hfin as (Hh' & Hfs').
      split; congruence.
    + apply (transcribe_failed abi contextPtr audioPath w chars pcm (fst r2) (fst r3));
        [ exact Hnz | memory | exact Hread | exact Hrc ].
  - apply (transcribe_unreadable abi contextPtr audioPath w chars pcm);
      [ exact Hnz | memory | exact Hread ].
  - assert (Hempty : snd (reader chars [] w) = [])
      by (apply (read_wav_file_undefined_trace w chars []); exact Hread).
    rewrite Hempty. cbn [app].
    apply (transcribe_undefined abi contextPtr audioPath w chars);
      [ exact Hnz | exact Hread ].
Qed.

(** [transcribeFromFloatArray] runs along one of its four paths. *)
Lemma transcribeFromFloatArray_runs (contextPtr : Abi.jlong)
    (audioData : Jni.jfloatArray) w :
  transcribeFromFloatArray_run abi contextPtr audioData w
    (result (transcribeFromFloatArray abi env contextPtr audioData) w)
    (trace (transcribeFromFloatArray abi env contextPtr audioData) w)
    (final (transcribeFromFloatArray abi env contextPtr audioData) w).
Proof.
  unfold transcribeFromFloatArray.
  destruct (Z.eqb_spec contextPtr 0) as [Hz | Hnz]; [ now apply from_array_null | ].
  run_step.
  set (r1 := ext_elements_available env audioData (ext w)).
  destruct (fst r1); run_step;
    [ | apply from_array_no_elements; [ exact Hnz | memory ] ].
  set (r2 := ext_full_default_params env Whisper.WHISPER_SAMPLING_GREEDY (snd r1)).
  match goal with |- context [ext_full ?e ?c ?p ?s ?n ?x] =>
    set (r3 := ext_full e c p s n x) end.
  destruct (Z.eqb_spec (fst r3) 0) as [Hrc | Hrc]; run_step.
  - match goal with |- context [collect_transcription ?e ?b ?c ?x] =>
      destruct (collect_transcription_runs b c x)
        as (n & texts & Hlen & Hct & Htt & Hmem);
      unfold result, trace, final in Hct, Htt, Hmem;
      destruct (collect_transcription e b c x) as [[res w4] t4] end.
    cbn [fst snd] in *. subst res t4. rewrite Hrc.
    apply (from_array_done abi contextPtr audioData w (fst r2) n texts w4);
      [ exact Hnz | memory | exact Hlen ].
  - apply (from_array_failed abi contextPtr audioData w (fst r2) (fst r3));
      [ exact Hnz | memory | exact Hrc ].
Qed.

(** [freeContext] on a handle other than [0] frees the context the
    handle converts to, and logs. *)
Lemma freeContext_runs (contextPtr : Abi.jlong) w :
  contextPtr <> 0 ->
  trace (freeContext abi env contextPtr) w =
    [whisper_free (Abi.jlong_to_ptr abi contextPtr);
     info "Whisper context freed" []] /\
  same_memory w (final (freeContext abi env contextPtr) w).
Proof.
  intros Hnz. unfold freeContext.
  destruct (Z.eqb_spec contextPtr 0) as [Hz | _]; [ contradiction | ].
  run_step. split; [ reflexivity | memory ].
Qed.

End BridgeFacts.

(** ** The claims about the reader *)

Section ReaderClaims.

Context {CParams Other Ext : Type}.

Implicit Types (w : world Ext) (c : list byte) (pcm : list F32.t).

Abbreviation wav_reader := (@read_wav_file CParams Other Ext).

(** A file of at least four bytes is refused exactly when these are not
    "RIFF". *)
Lemma read_wav_file_magic w (f : string) pcm c :
  files w f = Some c -> (4 <= length c)%nat ->
  (result (wav_reader f pcm) w = Returns (false, pcm) <-> firstn 4 c <> riff).
Proof.
  intros Hf Hlen. unfold result.
  rewrite (read_wav_file_opens w f pcm c Hf). cbn [fst].
  pose proof (magic_of_file w c Hlen) as Hm.
  destruct (bad_magic (header_of w c)).
  - split; [ intros _ Hr | reflexivity ].
    apply Hm in Hr. discriminate.
  - split.
    + destruct (Mem.store _ _); discriminate.
    + intros Hr. exfalso. apply Hr, Hm. reflexivity.
Qed.

(** Every file that starts with "RIFF" gets past the test of the magic,
    whatever follows: it is accepted, unless the second [read] overruns
    the vector. *)
Lemma read_wav_file_riff w (f : string) pcm (rest : list byte) :
  files w f = Some (riff ++ rest) ->
  result (wav_reader f pcm) w = Undefined \/
  exists samples, result (wav_reader f pcm) w = Returns (true, samples).
Proof.
  intros Hf.
  assert (Hb : bad_magic (header_of w (riff ++ rest)) = false)
    by (apply magic_of_file; [ cbn; lia | reflexivity ]).
  unfold result. rewrite (read_wav_file_opens w f pcm _ Hf), Hb. cbn [fst].
  destruct (Mem.store _ _); [ right; eexists; reflexivity | left; reflexivity ].
Qed.

(** On the empty file the reader decides on what the stack held. *)
Lemma read_wav_file_empty_file w (f : string) pcm :
  files w f = Some [] ->
  ((exists samples, result (wav_reader f pcm) w = Returns (true, samples))
   <-> map (stack w) (seq 0 4) = riff).
Proof.
  intros Hf.
  assert (Hm : bad_magic (header_of w []) = false <-> map (stack w) (seq 0 4) = riff).
  { rewrite bad_magic_false, !header_of_stack by (cbn; lia).
    unfold riff. cbn [map seq]. split.
    - intros (-> & -> & -> & ->). reflexivity.
    - intros H. injection H as -> -> -> ->. repeat split. }
  unfold result. rewrite (read_wav_file_opens w f pcm [] Hf). cbn [fst].
  rewrite data_of_spec. cbn [length Nat.leb].
  rewrite store_fits by (cbn [length]; lia).
  destruct (bad_magic (header_of w [])).
  - split; [ intros (samples & H); discriminate | ].
    intros H. apply Hm in H. discriminate.
  - split; [ intros _; now apply Hm | intros _; eexists; reflexivity ].
Qed.

End ReaderClaims.

(** ** The claims about the samples *)

Lemma exact_quotient_sample (b0 b1 : byte) :
  exact_quotient (Mem.load_i16 b0 b1) (pcm16_to_f32 (Mem.load_i16 b0 b1)).
Proof.
  destruct (pcm16_to_f32_exact b0 b1) as (q & Hq & Heq).
  pose proof (load_i16_range b0 b1) as Hr.
  exists q. split; [ exact Hq | ]. split; [ exact Heq | ].
  assert (Hle : (-1 <= Mem.load_i16 b0 b1 # 32768)%Q) by (unfold Qle; cbn; lia).
  assert (Hlt : (Mem.load_i16 b0 b1 # 32768 < 1)%Q) by (unfold Qlt; cbn; lia).
  assert (Hm1 : (Mem.load_i16 b0 b1 # 32768 == -1)%Q <-> Mem.load_i16 b0 b1 = -32768)
    by (unfold Qeq; cbn; lia).
  rewrite Heq. tauto.
Qed.

(** The reader never hands over [2 ^ 31] samples or more, so their number
    fits the [int] that [whisper_full] takes. *)
Lemma read_wav_file_count {CParams Other Ext : Type} (w : world Ext) (f : string)
    (pcm samples : list F32.t) :
  result (@read_wav_file CParams Other Ext f pcm) w = Returns (true, samples) ->
  Abi.signed 32 (Z.of_nat (length samples)) = Z.of_nat (length samples).
Proof.
  intros Hok.
  destruct (read_wav_file_acceptance w f pcm samples Hok) as (c & Hf & _).
  destruct (read_wav_file_sample w f pcm c samples Hf Hok) as [Hlen _].
  pose proof (data_size_range (header_of w c)) as Hr.
  set (size := data_size_of (header_of w c)) in *.
  assert (size / 2 < 2 ^ 31) by (apply Z.div_lt_upper_bound; lia).
  assert (0 <= size / 2) by (apply Z.div_pos; lia).
  unfold Abi.signed. rewrite Z.mod_small by lia.
  destruct (Z.ltb_spec (Z.of_nat (length samples)) (2 ^ (32 - 1))); [ reflexivity | ].
  change (2 ^ (32 - 1)) with (2 ^ 31) in *. lia.
Qed.

(** ** The claims about the entry points *)

Section BridgeClaims.

Context {CParams Other Ext : Type}.
Variable abi : Abi.t.
Variable env : externals CParams Other Ext.

Implicit Types (w : world Ext) (ctx : Abi.ptr) (c : call CParams Other)
  (t : list (call CParams Other)).

(** A property of the four kinds of call made while the segments are
    collected holds of all of them. *)
Lemma collecting_Forall (P : call CParams Other -> Prop) (announce : bool) ctx
    (n : Z) (texts : list string) :
  (forall k, P (whisper_full_n_segments ctx k)) ->
  (forall fmt args, P (info fmt args)) ->
  (forall i s, P (whisper_full_get_segment_text ctx i s)) ->
  (forall s, P (NewStringUTF s)) ->
  Forall P (collecting announce ctx n texts).
Proof.
  intros Hn Hi Hs Hu. unfold collecting.
  apply List.Forall_app; split; [ | apply List.Forall_app; split;
    [ | apply List.Forall_app; split; [ | apply List.Forall_app; split ] ] ].
  - apply List.Forall_cons; [ apply Hn | apply List.Forall_nil ].
  - destruct announce; [ apply List.Forall_cons; [ apply Hi | ] | ]; apply List.Forall_nil.
  - apply List.Forall_map, List.Forall_forall. intros [i s] _. apply Hs.
  - destruct announce; [ apply List.Forall_cons; [ apply Hi | ] | ]; apply List.Forall_nil.
  - apply List.Forall_cons; [ apply Hu | apply List.Forall_nil ].
Qed.

Ltac all_calls tac :=
  lazymatch goal with
  | |- Forall _ [] => apply List.Forall_nil
  | |- Forall _ (_ :: _) => apply List.Forall_cons; [ tac | all_calls tac ]
  | |- Forall _ (collecting _ _ _ _) => apply collecting_Forall; intros; tac
  | |- Forall _ (_ ++ _) => apply List.Forall_app; split; all_calls tac
  end.

(** The call [Hin] claims to be in a trace is not there: no call of the
    trace equals it, which [tac] shows call by call. *)
Ltac absent Hin tac :=
  lazymatch type of Hin with
  | In ?c ?l =>
    let Hall := fresh "Hall" in
    assert (Hall : Forall (fun c' => c' <> c) l) by all_calls tac;
    rewrite List.Forall_forall in Hall;
    exact (Hall _ Hin eq_refl)
  end.

Lemma segment_texts_collecting (announce : bool) ctx (n : Z) (texts : list string) :
  segment_texts (collecting (CParams := CParams) (Other := Other) announce ctx n texts) =
  combine (upfrom 0 (Z.to_nat n)) texts.
Proof.
  unfold collecting, segment_texts.
  rewrite !flat_map_app.
  fold (segment_texts (map (segment_call (CParams := CParams) (Other := Other) ctx)
                           (combine (upfrom 0 (Z.to_nat n)) texts))).
  rewrite segment_texts_calls.
  destruct announce; cbn; now rewrite app_nil_r.
Qed.

Lemma reader_trace_shape w (f : string) :
  trace (@read_wav_file CParams Other Ext f []) w = [] \/
  exists fmt args, trace (@read_wav_file CParams Other Ext f []) w = [error fmt args].
Proof. apply read_wav_file_trace. Qed.

(** An inference of [transcribe] is made once the reader has accepted the
    file named by the characters handed out: on the context the handle
    converts to, with the configured defaults, on the samples of the
    reader and their number. *)
Lemma transcribe_infers (contextPtr : Abi.jlong) (audioPath : Jni.jstring) w ctx
    (p : Whisper.full_params Other) (samples : list F32.t) (n rc : Z) :
  In (whisper_full ctx p samples n rc)
     (trace (transcribe abi env contextPtr audioPath) w) ->
  exists (chars : string) (d : Whisper.full_params Other),
    In (GetStringUTFChars audioPath (Some chars))
       (trace (transcribe abi env contextPtr audioPath) w) /\
    In (whisper_full_default_params Whisper.WHISPER_SAMPLING_GREEDY d)
       (trace (transcribe abi env contextPtr audioPath) w) /\
    result (@read_wav_file CParams Other Ext chars []) w = Returns (true, samples) /\
    ctx = Abi.jlong_to_ptr abi contextPtr /\
    p = configure d /\
    n = Abi.signed 32 (Z.of_nat (length samples)).
Proof.
  destruct (transcribe_runs abi env contextPtr audioPath w)
    as [ Hz | w' Hnz Hmem | chars pcm w' Hnz Hmem Hread
       | chars pcm d rc' w' Hnz Hmem Hread Hrc'
       | chars pcm d k texts w' Hnz Hmem Hread Hlen | chars w' Hnz Hread ];
    intros Hin.
  - cbn in Hin. intuition discriminate.
  - cbn in Hin. intuition discriminate.
  - exfalso. revert Hin.
    destruct (read_wav_file_trace (CParams := CParams) (Other := Other) w chars [])
      as [-> | (fmt & args & ->)]; cbn; intuition discriminate.
  - exists chars, d.
    assert (ctx = Abi.jlong_to_ptr abi contextPtr /\ p = configure d /\ samples = pcm /\
            n = Abi.signed 32 (Z.of_nat (length pcm))) as (-> & -> & -> & ->)
      by (cbn in Hin; intuition (try discriminate); repeat split; congruence).
    repeat split; try (cbn; tauto).
  - exists chars, d.
    assert (ctx = Abi.jlong_to_ptr abi contextPtr /\ p = configure d /\ samples = pcm /\
            n = Abi.signed 32 (Z.of_nat (length pcm))) as (-> & -> & -> & ->).
    { apply in_app_or in Hin. destruct Hin as [Hin | Hin].
      - cbn in Hin. intuition (try discriminate); repeat split; congruence.
      - exfalso. absent Hin ltac:(intros; discriminate). }
    repeat split; try (apply in_or_app; left; cbn; tauto). exact Hread.
  - cbn in Hin. intuition discriminate.
Qed.

(** C2: when a transcription fails (the handle is [0], the virtual
    machine does not hand out the path or the array, the reader refuses
    the file, or the inference returns a code other than [0]), the
    entry point returns, and what it returns is a string that starts with
    "Error: ". *)
Theorem failures_return_sentinels (contextPtr : Abi.jlong)
    (audioPath : Jni.jstring) (audioData : Jni.jfloatArray) w :
  (contextPtr = 0 \/
   (exists c, In c (trace (transcribe abi env contextPtr audioPath) w) /\ failure c) \/
   (exists chars pcm,
      In (GetStringUTFChars audioPath (Some chars))
         (trace (transcribe abi env contextPtr audioPath) w) /\
      result (@read_wav_file CParams Other Ext chars []) w = Returns (false, pcm)) ->
   exists s : string,
     result (transcribe abi env contextPtr audioPath) w = Returns s /\
     String.prefix "Error: " s = true)
  /\
  (contextPtr = 0 \/
   (exists c, In c (trace (transcribeFromFloatArray abi env contextPtr audioData) w)
              /\ failure c) ->
   String.prefix "Error: "
     (result (transcribeFromFloatArray abi env contextPtr audioData) w) = true).
Proof.
  split.
  - destruct (transcribe_runs abi env contextPtr audioPath w)
      as [ Hz | w' Hnz Hmem | chars pcm w' Hnz Hmem Hread
         | chars pcm d rc w' Hnz Hmem Hread Hrc
         | chars pcm d n texts w' Hnz Hmem Hread Hlen | chars w' Hnz Hread ];
      try (intros _; eexists; split; reflexivity).
    + intros [Hz | [(c & Hin & Hfail) | (chars' & pcm' & Hin & Hbad)]];
        [ contradiction | | ]; exfalso.
      * revert c Hin Hfail.
        refine (proj1 (List.Forall_forall (fun c => failure c -> False) _) _).
        all_calls ltac:(cbn; tauto).
      * assert (Hsame : Forall (fun c => forall s, c = GetStringUTFChars audioPath (Some s) ->
                                          s = chars)
                   ([GetStringUTFChars audioPath (Some chars);
                     info "Transcribing audio file: %s" [Log.Str chars];
                     info "Read %zu audio samples" [Log.Size (length pcm)];
                     whisper_full_default_params Whisper.WHISPER_SAMPLING_GREEDY d;
                     whisper_full (Abi.jlong_to_ptr abi contextPtr) (configure d) pcm
                       (Abi.signed 32 (Z.of_nat (length pcm))) 0;
                     ReleaseStringUTFChars audioPath chars]
                    ++ collecting true (Abi.jlong_to_ptr abi contextPtr) n texts)).
        { all_calls ltac:(intros; try discriminate;
                          match goal with
                          | H : _ = GetStringUTFChars _ _ |- _ => now inversion H
                          end). }
        rewrite List.Forall_forall in Hsame.
        rewrite (Hsame _ Hin chars' eq_refl), Hread in Hbad. discriminate.
    + intros [Hz | [(c & Hin & Hfail) | (chars' & pcm' & Hin & Hbad)]];
        [ contradiction | | ]; exfalso.
      * cbn in Hin. destruct Hin as [<- | [<- | []]]; exact Hfail.
      * assert (chars' = chars) as ->
          by (cbn in Hin; intuition (try discriminate); congruence).
        rewrite Hread in Hbad. discriminate.
  - destruct (transcribeFromFloatArray_runs abi env contextPtr audioData w)
      as [ Hz | w' Hnz Hmem | d rc w' Hnz Hmem Hrc | d n texts w' Hnz Hmem Hlen ];
      try reflexivity.
    intros [Hz | (c & Hin & Hfail)]; [ contradiction | ]. exfalso.
    revert c Hin Hfail.
    refine (proj1 (List.Forall_forall (fun c => failure c -> False) _) _).
    all_calls ltac:(cbn; tauto).
Qed.

(** C3, as the code has it: when [whisper_full] returns a code [rc]
    other than [0], both entry points return the fixed string
    "Error: Transcription failed", the same for every [rc]; the code
    itself goes to the Android log, as the argument of an error line, and
    nowhere else. *)
Theorem return_code_is_logged (contextPtr : Abi.jlong) (audioPath : Jni.jstring)
    (audioData : Jni.jfloatArray) w ctx (p : Whisper.full_params Other)
    (samples : list F32.t) (n rc : Z) :
  rc <> 0 ->
  (In (whisper_full ctx p samples n rc)
      (trace (transcribe abi env contextPtr audioPath) w) ->
   result (transcribe abi env contextPtr audioPath) w
     = Returns "Error: Transcription failed" /\
   In (error "Whisper transcription failed with code: %d" [Log.Int rc])
      (trace (transcribe abi env contextPtr audioPath) w))
  /\
  (In (whisper_full ctx p samples n rc)
      (trace (transcribeFromFloatArray abi env contextPtr audioData) w) ->
   result (transcribeFromFloatArray abi env contextPtr audioData) w
     = "Error: Transcription failed" /\
   In (error "Whisper transcription failed with code: %d" [Log.Int rc])
      (trace (transcribeFromFloatArray abi env contextPtr audioData) w)).
Proof.
  intros Hrc. split.
  - destruct (transcribe_runs abi env contextPtr audioPath w)
      as [ Hz | w' Hnz Hmem | chars pcm w' Hnz Hmem Hread
         | chars pcm d rc' w' Hnz Hmem Hread Hrc'
         | chars pcm d k texts w' Hnz Hmem Hread Hlen | chars w' Hnz Hread ];
      intros Hin.
    + cbn in Hin. intuition discriminate.
    + cbn in Hin. intuition discriminate.
    + exfalso. revert Hin.
      destruct (read_wav_file_trace (CParams := CParams) (Other := Other) w chars [])
        as [-> | (fmt & args & ->)]; cbn; intuition discriminate.
    + assert (rc' = rc) as -> by (cbn in Hin; intuition (try discriminate); congruence).
      split; [ reflexivity | cbn; tauto ].
    + exfalso. absent Hin ltac:(intros; try discriminate; congruence).
    + cbn in Hin. intuition discriminate.
  - destruct (transcribeFromFloatArray_runs abi env contextPtr audioData w)
      as [ Hz | w' Hnz Hmem | d rc' w' Hnz Hmem Hrc' | d k texts w' Hnz Hmem Hlen ];
      intros Hin.
    + cbn in Hin. intuition discriminate.
    + cbn in Hin. intuition discriminate.
    + assert (rc' = rc) as -> by (cbn in Hin; intuition (try discriminate); congruence).
      split; [ reflexivity | cbn; tauto ].
    + exfalso. absent Hin ltac:(intros; try discriminate; congruence).
Qed.

Lemma configure_configured t (d : Whisper.full_params Other) :
  In (whisper_full_default_params Whisper.WHISPER_SAMPLING_GREEDY d) t ->
  configured t (configure d).
Proof. intros Hin. exists d. repeat split. exact Hin. Qed.

(** C6: the parameters of every inference, from either entry point,
    are the library's defaults for greedy sampling with 4 threads, no
    translation, language "en", offset 0, [no_context] set,
    [single_segment] clear and the four print flags clear, and nothing
    else changed. *)
Theorem inference_parameters (contextPtr : Abi.jlong) (audioPath : Jni.jstring)
    (audioData : Jni.jfloatArray) w ctx (p : Whisper.full_params Other)
    (samples : list F32.t) (n rc : Z) :
  (In (whisper_full ctx p samples n rc)
      (trace (transcribe abi env contextPtr audioPath) w) ->
   configured (trace (transcribe abi env contextPtr audioPath) w) p)
  /\
  (In (whisper_full ctx p samples n rc)
      (trace (transcribeFromFloatArray abi env contextPtr audioData) w) ->
   configured (trace (transcribeFromFloatArray abi env contextPtr audioData) w) p).
Proof.
  split.
  - destruct (transcribe_runs abi env contextPtr audioPath w)
      as [ Hz | w' Hnz Hmem | chars pcm w' Hnz Hmem Hread
         | chars pcm d rc' w' Hnz Hmem Hread Hrc'
         | chars pcm d k texts w' Hnz Hmem Hread Hlen | chars w' Hnz Hread ];
      intros Hin.
    + cbn in Hin. intuition discriminate.
    + cbn in Hin. intuition discriminate.
    + exfalso. revert Hin.
      destruct (read_wav_file_trace (CParams := CParams) (Other := Other) w chars [])
        as [-> | (fmt & args & ->)]; cbn; intuition discriminate.
    + assert (p = configure d) as ->
        by (cbn in Hin; intuition (try discriminate); congruence).
      apply configure_configured. cbn. tauto.
    + apply in_app_or in Hin. destruct Hin as [Hin | Hin].
      * assert (p = configure d) as ->
          by (cbn in Hin; intuition (try discriminate); congruence).
        apply configure_configured. cbn. tauto.
      * exfalso. absent Hin ltac:(intros; discriminate).
    + cbn in Hin. intuition discriminate.
  - destruct (transcribeFromFloatArray_runs abi env contextPtr audioData w)
      as [ Hz | w' Hnz Hmem | d rc' w' Hnz Hmem Hrc' | d k texts w' Hnz Hmem Hlen ];
      intros Hin.
    + cbn in Hin. intuition discriminate.
    + cbn in Hin. intuition discriminate.
    + assert (p = configure d) as ->
        by (cbn in Hin; intuition (try discriminate); congruence).
      apply configure_configured. cbn. tauto.
    + apply in_app_or in Hin. destruct Hin as [Hin | Hin].
      * assert (p = configure d) as ->
          by (cbn in Hin; intuition (try discriminate); congruence).
        apply configure_configured. cbn. tauto.
      * exfalso. absent Hin ltac:(intros; discriminate).
Qed.

Lemma after_release_collecting (announce : bool) ctx (n : Z) (texts : list string) :
  Forall (fun c => samples_of c = None)
         (collecting (CParams := CParams) (Other := Other) announce ctx n texts).
Proof. all_calls ltac:(reflexivity). Qed.

(** C7: [transcribeFromFloatArray] leaves the Java array, and the whole
    Java heap, as it found them; the elements it obtained are released
    with [JNI_ABORT], nothing being copied back; they are passed to at
    most one inference, unchanged; no call made after the release carries
    them; and the call leaves nothing behind but what the library and the
    virtual machine keep for themselves. *)
Theorem array_is_left_unchanged (contextPtr : Abi.jlong)
    (audioData : Jni.jfloatArray) w :
  heap (final (transcribeFromFloatArray abi env contextPtr audioData) w) = heap w /\
  Forall (fun c => match c with
                   | ReleaseFloatArrayElements a l mode =>
                     a = audioData /\ l = elements w audioData /\ mode = Jni.JNI_ABORT
                   | _ => True
                   end)
         (trace (transcribeFromFloatArray abi env contextPtr audioData) w) /\
  (length (List.filter is_full
             (trace (transcribeFromFloatArray abi env contextPtr audioData) w)) <= 1)%nat /\
  Forall (fun c => match samples_of c with
                   | Some l => l = elements w audioData
                   | None => True
                   end)
         (trace (transcribeFromFloatArray abi env contextPtr audioData) w) /\
  Forall (fun c => samples_of c = None)
         (after_release
            (trace (transcribeFromFloatArray abi env contextPtr audioData) w)) /\
  same_memory w (final (transcribeFromFloatArray abi env contextPtr audioData) w).
Proof.
  destruct (transcribeFromFloatArray_runs abi env contextPtr audioData w)
    as [ Hz | w' Hnz Hmem | d rc' w' Hnz Hmem Hrc' | d k texts w' Hnz Hmem Hlen ].
  - repeat split; try solve [ all_calls ltac:(cbn; auto) ]; cbn; try lia.
    all_calls ltac:(cbn; auto).
  - repeat split; try apply Hmem; try solve [ all_calls ltac:(cbn; auto) ]; cbn; try lia.
    all_calls ltac:(cbn; auto).
  - repeat split; try apply Hmem; try solve [ all_calls ltac:(cbn; auto) ]; cbn; try lia.
    all_calls ltac:(cbn; auto).
  - repeat split; try apply Hmem; try solve [ all_calls ltac:(cbn; auto) ].
    + rewrite List.filter_app, length_app.
      replace (List.filter is_full
                 (collecting false (Abi.jlong_to_ptr abi contextPtr) k texts))
        with (@nil (call CParams Other)); [ cbn; lia | ].
      symmetry. unfold collecting. rewrite !List.filter_app. cbn.
      induction (combine (upfrom 0 (Z.to_nat k)) texts) as [ | it l IH ];
        [ reflexivity | exact IH ].
    + cbn [after_release app]. apply after_release_collecting.
Qed.

Ltac abi_cases Hs :=
  unfold Abi.supported, Abi.is_ptr, Abi.jlong_to_ptr, Abi.ptr_to_jlong, Abi.signed in *;
  destruct Hs as [Hs | Hs]; rewrite Hs in *; destruct (Abi.ptr_sext abi); cbv zeta;
  change (2 ^ 64) with 18446744073709551616 in *;
  change (2 ^ 32) with 4294967296 in *;
  change (2 ^ (64 - 1)) with 9223372036854775808 in *;
  change (2 ^ (32 - 1)) with 2147483648 in *;
  repeat match goal with
         | |- context [?x <? ?y] => destruct (Z.ltb_spec x y)
         end;
  Z.to_euclidean_division_equations; lia.

(** Converting a pointer to a [jlong] and back gives the pointer. *)
Lemma ptr_round_trip ctx :
  Abi.supported abi -> Abi.is_ptr abi ctx ->
  Abi.jlong_to_ptr abi (Abi.ptr_to_jlong abi ctx) = ctx.
Proof. intros Hs Hp. abi_cases Hs. Qed.

(** Only the null pointer converts to the handle [0]. *)
Lemma ptr_to_jlong_nonzero ctx :
  Abi.supported abi -> Abi.is_ptr abi ctx -> ctx <> 0 ->
  Abi.ptr_to_jlong abi ctx <> 0.
Proof. intros Hs Hp Hnz. abi_cases Hs. Qed.

(** C8: when the library produced the context [ctx] for [initContext],
    the handle [initContext] returned converts back to [ctx]; passed to
    [freeContext] it has exactly [ctx] freed, and passed to either
    transcription every call into the library is made on [ctx]. *)
Theorem handle_round_trip (modelPath : Jni.jstring) w (path : string)
    (cp : CParams) ctx :
  Abi.supported abi ->
  Abi.is_ptr abi ctx ->
  ctx <> 0 ->
  In (whisper_init_from_file_with_params path cp ctx)
     (trace (initContext abi env modelPath) w) ->
  Abi.jlong_to_ptr abi (result (initContext abi env modelPath) w) = ctx /\
  (forall w',
      trace (freeContext abi env (result (initContext abi env modelPath) w)) w' =
      [whisper_free ctx; info "Whisper context freed" []]) /\
  (forall w' audioPath,
      on_context ctx
        (trace (transcribe abi env (result (initContext abi env modelPath) w) audioPath)
               w')) /\
  (forall w' audioData,
      on_context ctx
        (trace (transcribeFromFloatArray abi env
                  (result (initContext abi env modelPath) w) audioData) w')).
Proof.
  intros Hs Hp Hnz.
  destruct (initContext_runs abi env modelPath w) as [ | chars cp' | chars cp' ctx' Hnz' ];
    intros Hin.
  - cbn in Hin. intuition discriminate.
  - cbn in Hin. exfalso. intuition (try discriminate). congruence.
  - assert (ctx' = ctx) as ->
      by (cbn in Hin; intuition (try discriminate); congruence).
    pose proof (ptr_round_trip ctx Hs Hp) as Hback.
    pose proof (ptr_to_jlong_nonzero ctx Hs Hp Hnz) as Hh.
    set (h := Abi.ptr_to_jlong abi ctx) in *.
    split; [ exact Hback | ]. split; [ | split ].
    + intros w'. destruct (freeContext_runs abi env h w' Hh) as [Ht _].
      now rewrite Ht, Hback.
    + intros w' audioPath. unfold on_context.
      destruct (transcribe_runs abi env h audioPath w')
        as [ Hz | w'' _ Hmem | chars' pcm w'' _ Hmem Hread
           | chars' pcm d rc' w'' _ Hmem Hread Hrc'
           | chars' pcm d k texts w'' _ Hmem Hread Hlen | chars' w'' _ Hread ];
        try rewrite Hback; try solve [ all_calls ltac:(cbn; auto) ].
      destruct (read_wav_file_trace (CParams := CParams) (Other := Other) w' chars' [])
        as [-> | (fmt & args & ->)]; all_calls ltac:(cbn; auto).
    + intros w' audioData. unfold on_context.
      destruct (transcribeFromFloatArray_runs abi env h audioData w')
        as [ Hz | w'' _ Hmem | d rc' w'' _ Hmem Hrc' | d k texts w'' _ Hmem Hlen ];
        try rewrite Hback; all_calls ltac:(cbn; auto).
Qed.

(** C9: [freeContext] on the handle [0] returns at once: it makes no
    call, so frees nothing, and leaves the world as it is. A failed
    [initContext] returns that handle. *)
Theorem freeContext_null (modelPath : Jni.jstring) (w0 w : world Ext) :
  freeContext abi env 0 w = (tt, w, []) /\
  (init_failure modelPath (trace (initContext abi env modelPath) w0) ->
   result (initContext abi env modelPath) w0 = 0 /\
   freeContext abi env (result (initContext abi env modelPath) w0) w = (tt, w, [])).
Proof.
  split; [ reflexivity | ].
  destruct (initContext_runs abi env modelPath w0) as [ | chars cp | chars cp ctx Hnz ];
    intros Hfail; try (split; reflexivity).
  exfalso. destruct Hfail as [Hin | (path & cp' & Hin)]; cbn in Hin;
    intuition (try discriminate); congruence.
Qed.

Lemma combine_upfrom_fst (i : Z) (texts : list string) :
  map fst (combine (upfrom i (length texts)) texts) = upfrom i (length texts).
Proof.
  revert i. induction texts as [ | s texts IH ]; intros i; [ reflexivity | ].
  cbn. now rewrite IH.
Qed.

Lemma combine_upfrom_snd (i : Z) (texts : list string) :
  map snd (combine (upfrom i (length texts)) texts) = texts.
Proof.
  revert i. induction texts as [ | s texts IH ]; intros i; [ reflexivity | ].
  cbn. now rewrite IH.
Qed.

Lemma collecting_joined (announce : bool) ctx (n : Z) (texts : list string)
    (pre : list (call CParams Other)) :
  length texts = Z.to_nat n ->
  segment_texts pre = [] ->
  joined ctx (pre ++ collecting announce ctx n texts) (String.concat " " texts).
Proof.
  intros Hlen Hpre. exists n.
  assert (Hseg : segment_texts (pre ++ collecting announce ctx n texts) =
                 combine (upfrom 0 (length texts)) texts).
  { unfold segment_texts at 1. rewrite flat_map_app.
    fold (segment_texts pre).
    fold (segment_texts (collecting (CParams := CParams) (Other := Other)
                           announce ctx n texts)).
    now rewrite Hpre, segment_texts_collecting, Hlen. }
  rewrite Hseg, combine_upfrom_fst, combine_upfrom_snd, Hlen.
  split; [ apply in_or_app; right; now left | ].
  split; [ reflexivity | ]. split; [ reflexivity | ].
  intros Hn. destruct texts; [ split; reflexivity | cbn in Hlen; lia ].
Qed.

(** C10: when the inference returns [0], the entry point returns the
    texts of the segments [0] to [n - 1], fetched in this order, joined
    by single spaces with none at the end; for no segment that is the
    empty string, which does not start with "Error: ". *)
Theorem transcription_is_joined_segments (contextPtr : Abi.jlong)
    (audioPath : Jni.jstring) (audioData : Jni.jfloatArray) w ctx
    (p : Whisper.full_params Other) (samples : list F32.t) (n : Z) :
  (In (whisper_full ctx p samples n 0)
      (trace (transcribe abi env contextPtr audioPath) w) ->
   exists r : string,
     result (transcribe abi env contextPtr audioPath) w = Returns r /\
     joined ctx (trace (transcribe abi env contextPtr audioPath) w) r)
  /\
  (In (whisper_full ctx p samples n 0)
      (trace (transcribeFromFloatArray abi env contextPtr audioData) w) ->
   joined ctx (trace (transcribeFromFloatArray abi env contextPtr audioData) w)
          (result (transcribeFromFloatArray abi env contextPtr audioData) w)).
Proof.
  split.
  - destruct (transcribe_runs abi env contextPtr audioPath w)
      as [ Hz | w' Hnz Hmem | chars pcm w' Hnz Hmem Hread
         | chars pcm d rc' w' Hnz Hmem Hread Hrc'
         | chars pcm d k texts w' Hnz Hmem Hread Hlen | chars w' Hnz Hread ];
      intros Hin.
    + cbn in Hin. intuition discriminate.
    + cbn in Hin. intuition discriminate.
    + exfalso. revert Hin.
      destruct (read_wav_file_trace (CParams := CParams) (Other := Other) w chars [])
        as [-> | (fmt & args & ->)]; cbn; intuition discriminate.
    + exfalso. cbn in Hin. intuition (try discriminate). congruence.
    + assert (ctx = Abi.jlong_to_ptr abi contextPtr) as ->.
      { apply in_app_or in Hin. destruct Hin as [Hin | Hin].
        - cbn in Hin. intuition (try discriminate). congruence.
        - exfalso. absent Hin ltac:(intros; discriminate). }
      eexists. split; [ reflexivity | ]. now apply collecting_joined.
    + cbn in Hin. intuition discriminate.
  - destruct (transcribeFromFloatArray_runs abi env contextPtr audioData w)
      as [ Hz | w' Hnz Hmem | d rc' w' Hnz Hmem Hrc' | d k texts w' Hnz Hmem Hlen ];
      intros Hin.
    + cbn in Hin. intuition discriminate.
    + cbn in Hin. intuition discriminate.
    + exfalso. cbn in Hin. intuition (try discriminate). congruence.
    + assert (ctx = Abi.jlong_to_ptr abi contextPtr) as ->.
      { apply in_app_or in Hin. destruct Hin as [Hin | Hin].
        - cbn in Hin. intuition (try discriminate). congruence.
        - exfalso. absent Hin ltac:(intros; discriminate). }
      now apply collecting_joined.
Qed.

(** Once the reader has accepted the file named by the characters handed
    out, [transcribe] runs the inference on the samples of the reader. *)
Lemma transcribe_passes_samples (contextPtr : Abi.jlong) (audioPath : Jni.jstring) w
    (chars : string) (samples : list F32.t) :
  In (GetStringUTFChars audioPath (Some chars))
     (trace (transcribe abi env contextPtr audioPath) w) ->
  result (@read_wav_file CParams Other Ext chars []) w = Returns (true, samples) ->
  exists (d : Whisper.full_params Other) (rc : Z),
    In (whisper_full (Abi.jlong_to_ptr abi contextPtr) (configure d) samples
          (Z.of_nat (length samples)) rc)
       (trace (transcribe abi env contextPtr audioPath) w).
Proof.
  destruct (transcribe_runs abi env contextPtr audioPath w)
    as [ Hz | w' Hnz Hmem | chars' pcm w' Hnz Hmem Hread
       | chars' pcm d rc' w' Hnz Hmem Hread Hrc'
       | chars' pcm d k texts w' Hnz Hmem Hread Hlen | chars' w' Hnz Hread ];
    intros Hin Hok.
  - cbn in Hin. intuition discriminate.
  - cbn in Hin. intuition discriminate.
  - exfalso.
    assert (chars = chars') as ->.
    { revert Hin.
      destruct (reader_trace_shape w chars') as [-> | (fmt & args & ->)];
        cbn; intuition (try discriminate); congruence. }
    rewrite Hok in Hread. discriminate.
  - assert (chars = chars') as ->
      by (cbn in Hin; intuition (try discriminate); congruence).
    rewrite Hok in Hread. injection Hread as <-.
    rewrite (read_wav_file_count w chars' [] samples Hok).
    exists d, rc'. cbn. tauto.
  - assert (chars = chars') as ->.
    { apply in_app_or in Hin. destruct Hin as [Hin | Hin].
      - cbn in Hin. intuition (try discriminate); congruence.
      - exfalso. absent Hin ltac:(intros; discriminate). }
    rewrite Hok in Hread. injection Hread as <-.
    rewrite (read_wav_file_count w chars' [] samples Hok).
    exists d, 0. apply in_or_app. left. cbn. tauto.
  - exfalso.
    assert (chars = chars') as ->
      by (cbn in Hin; intuition (try discriminate); congruence).
    rewrite Hok in Hread. discriminate.
Qed.

(** C5: the 16-bit sample [s] made of two bytes becomes the [float] that
    is [s / 32768] exactly, at least -1 (reached by [-32768] alone) and
    below 1. The samples an inference of [transcribe] is given are the
    samples of the file named by the characters handed out for the path,
    all of them and in order: as many as half the data size read into
    [header], sample [i] being the 16-bit number in bytes [44 + 2 i] and
    [44 + 2 i + 1] of the file (zero where the file has ended), turned
    into that [float]; and the inference is told their number. And the
    samples of a file the reader accepted are passed to an inference. *)
Theorem samples_are_normalized (b0 b1 : byte) (contextPtr : Abi.jlong)
    (audioPath : Jni.jstring) w ctx (p : Whisper.full_params Other)
    (samples : list F32.t) (n rc : Z) (file : string) (pcmf32 : list F32.t) :
  exact_quotient (Mem.load_i16 b0 b1) (pcm16_to_f32 (Mem.load_i16 b0 b1)) /\
  (In (whisper_full ctx p samples n rc)
      (trace (transcribe abi env contextPtr audioPath) w) ->
   exists (chars : string) (c : list byte),
     In (GetStringUTFChars audioPath (Some chars))
        (trace (transcribe abi env contextPtr audioPath) w) /\
     files w chars = Some c /\
     n = Z.of_nat (length samples) /\
     Z.of_nat (length samples) = data_size_of (header_of w c) / 2 /\
     forall i : nat,
       (i < length samples)%nat ->
       exists x : F32.t,
         nth_error samples i = Some x /\
         exact_quotient
           (Mem.load_i16 (Mem.byte_at c (44 + 2 * i)) (Mem.byte_at c (44 + 2 * i + 1)))
           x) /\
  (In (GetStringUTFChars audioPath (Some file))
      (trace (transcribe abi env contextPtr audioPath) w) ->
   result (@read_wav_file CParams Other Ext file []) w = Returns (true, pcmf32) ->
   exists (d : Whisper.full_params Other) (rc : Z),
     In (whisper_full (Abi.jlong_to_ptr abi contextPtr) (configure d) pcmf32
           (Z.of_nat (length pcmf32)) rc)
        (trace (transcribe abi env contextPtr audioPath) w)).
Proof.
  split; [ apply exact_quotient_sample | ].
  split; [ | apply transcribe_passes_samples ].
  intros Hin.
  destruct (transcribe_infers contextPtr audioPath w ctx p samples n rc Hin)
    as (chars' & d & Hget & _ & Hread & _ & _ & ->).
  destruct (read_wav_file_acceptance w chars' [] samples Hread) as (c & Hf & _).
  destruct (read_wav_file_sample w chars' [] c samples Hf Hread) as [Hlen Hnth].
  exists chars', c.
  split; [ exact Hget | ]. split; [ exact Hf | ].
  split; [ exact (read_wav_file_count w chars' [] samples Hread) | ].
  split.
  - rewrite Hlen. apply Z2Nat.id, Z.div_pos; [ | lia ].
    apply (data_size_range (header_of w c)).
  - intros i Hi. eexists. split; [ exact (Hnth i Hi) | apply exact_quotient_sample ].
Qed.

(** *** Further properties of the entry points *)

Lemma count_app (kind : call CParams Other -> bool) t1 t2 :
  count kind (t1 ++ t2) = (count kind t1 + count kind t2)%nat.
Proof. unfold count. now rewrite List.filter_app, length_app. Qed.

Lemma count_none (kind : call CParams Other -> bool) t :
  Forall (fun c => kind c = false) t -> count kind t = 0%nat.
Proof.
  unfold count. induction 1 as [ | c t Hc _ IH ]; [ reflexivity | ].
  cbn [List.filter]. now rewrite Hc.
Qed.

(** No call of a kind is made while the segments are collected, for a
    kind that none of the four calls made there is of. *)
Ltac collecting_none :=
  rewrite ?count_app;
  rewrite ?(count_none _ (collecting _ _ _ _)) by all_calls ltac:(reflexivity).

Lemma reader_refusal_trace w (f : string) (v : list F32.t) :
  result (@read_wav_file CParams Other Ext f []) w = Returns (false, v) ->
  exists fmt args, trace (@read_wav_file CParams Other Ext f []) w = [error fmt args].
Proof. intros H. now destruct (read_wav_file_refusal w f [] v H) as (_ & Ht & _). Qed.

(** X6: [initContext] leaks no string: it releases the characters of its
    argument exactly once when the virtual machine handed them out, on
    every path, and calls the library no more once it has. So does
    [transcribe] on every path that returns. What is released is always
    what was obtained. *)
Theorem strings_are_released (modelPath audioPath : Jni.jstring)
    (contextPtr : Abi.jlong) w :
  (count chars_released (trace (initContext abi env modelPath) w)
   = count chars_obtained (trace (initContext abi env modelPath) w) /\
   Forall (fun c => match c with
                    | ReleaseStringUTFChars s chars =>
                      s = modelPath /\
                      In (GetStringUTFChars modelPath (Some chars))
                         (trace (initContext abi env modelPath) w)
                    | _ => True
                    end)
          (trace (initContext abi env modelPath) w) /\
   count library_call
     (after chars_released (trace (initContext abi env modelPath) w)) = 0%nat)
  /\
  ((result (transcribe abi env contextPtr audioPath) w <> Undefined ->
    count chars_released (trace (transcribe abi env contextPtr audioPath) w)
    = count chars_obtained (trace (transcribe abi env contextPtr audioPath) w)) /\
   Forall (fun c => match c with
                    | ReleaseStringUTFChars s chars =>
                      s = audioPath /\
                      In (GetStringUTFChars audioPath (Some chars))
                         (trace (transcribe abi env contextPtr audioPath) w)
                    | _ => True
                    end)
          (trace (transcribe abi env contextPtr audioPath) w)).
Proof.
  split.
  - destruct (initContext_runs abi env modelPath w) as [ | chars cp | chars cp ctx Hnz ];
      (split; [ reflexivity | split; [ | reflexivity ] ]);
      all_calls ltac:(cbn; auto).
  - destruct (transcribe_runs abi env contextPtr audioPath w)
      as [ Hz | w' Hnz Hmem | chars pcm w' Hnz Hmem Hread
         | chars pcm d rc' w' Hnz Hmem Hread Hrc'
         | chars pcm d k texts w' Hnz Hmem Hread Hlen | chars w' Hnz Hread ].
    + split; [ reflexivity | all_calls ltac:(cbn; auto) ].
    + split; [ reflexivity | all_calls ltac:(cbn; auto) ].
    + destruct (reader_trace_shape w chars) as [-> | (fmt & args & ->)];
        (split; [ reflexivity | all_calls ltac:(cbn; auto) ]).
    + split; [ reflexivity | all_calls ltac:(cbn; auto) ].
    + split; [ intros _; collecting_none; reflexivity | all_calls ltac:(cbn; auto) ].
    + split; [ intros H; now contradiction H | all_calls ltac:(cbn; auto) ].
Qed.

(** X7: [transcribeFromFloatArray] releases the array elements exactly
    once when the virtual machine handed them out and never otherwise,
    and the inference is told the length of the array [GetArrayLength]
    reported, which is the number of elements it is given. *)
Theorem elements_are_released (contextPtr : Abi.jlong) (audioData : Jni.jfloatArray) w :
  count elements_released (trace (transcribeFromFloatArray abi env contextPtr audioData) w)
  = count elements_obtained
      (trace (transcribeFromFloatArray abi env contextPtr audioData) w) /\
  Forall (fun c => match c with
                   | whisper_full _ _ samples n _ =>
                     n = Z.of_nat (length samples) /\
                     In (GetArrayLength audioData n)
                        (trace (transcribeFromFloatArray abi env contextPtr audioData) w)
                   | _ => True
                   end)
         (trace (transcribeFromFloatArray abi env contextPtr audioData) w).
Proof.
  destruct (transcribeFromFloatArray_runs abi env contextPtr audioData w)
    as [ Hz | w' Hnz Hmem | d rc' w' Hnz Hmem Hrc' | d k texts w' Hnz Hmem Hlen ].
  - split; [ reflexivity | all_calls ltac:(cbn; auto) ].
  - split; [ reflexivity | all_calls ltac:(cbn; auto) ].
  - split; [ reflexivity | all_calls ltac:(cbn; auto) ].
  - split; [ collecting_none; reflexivity | all_calls ltac:(cbn; auto) ].
Qed.

(** X8: both transcriptions keep to the protocol of the library: they ask
    for segments only after an inference that returned [0], and with the
    handle [0] they do not call the library at all. *)
Theorem library_protocol (contextPtr : Abi.jlong) (audioPath : Jni.jstring)
    (audioData : Jni.jfloatArray) w :
  segments_follow_success (trace (transcribe abi env contextPtr audioPath) w) /\
  segments_follow_success
    (trace (transcribeFromFloatArray abi env contextPtr audioData) w) /\
  (contextPtr = 0 ->
   count library_call (trace (transcribe abi env contextPtr audioPath) w) = 0%nat /\
   count library_call
     (trace (transcribeFromFloatArray abi env contextPtr audioData) w) = 0%nat).
Proof.
  split; [ | split ].
  - destruct (transcribe_runs abi env contextPtr audioPath w)
      as [ Hz | w' Hnz Hmem | chars pcm w' Hnz Hmem Hread
         | chars pcm d rc' w' Hnz Hmem Hread Hrc'
         | chars pcm d k texts w' Hnz Hmem Hread Hlen | chars w' Hnz Hread ].
    + split; [ cbn [before_full is_full app error info]; all_calls ltac:(reflexivity) | reflexivity ].
    + split; [ cbn [before_full is_full app error info]; all_calls ltac:(reflexivity) | reflexivity ].
    + destruct (reader_trace_shape w chars) as [-> | (fmt & args & ->)];
        (split; [ cbn [before_full is_full app error info]; all_calls ltac:(reflexivity) | reflexivity ]).
    + split; [ cbn [before_full is_full app error info]; all_calls ltac:(reflexivity) | reflexivity ].
    + split; [ cbn [before_full is_full app error info]; all_calls ltac:(reflexivity) | ].
      rewrite count_app. cbn. discriminate.
    + split; [ cbn [before_full is_full app error info]; all_calls ltac:(reflexivity) | reflexivity ].
  - destruct (transcribeFromFloatArray_runs abi env contextPtr audioData w)
      as [ Hz | w' Hnz Hmem | d rc' w' Hnz Hmem Hrc' | d k texts w' Hnz Hmem Hlen ].
    + split; [ cbn [before_full is_full app error info]; all_calls ltac:(reflexivity) | reflexivity ].
    + split; [ cbn [before_full is_full app error info]; all_calls ltac:(reflexivity) | reflexivity ].
    + split; [ cbn [before_full is_full app error info]; all_calls ltac:(reflexivity) | reflexivity ].
    + split; [ cbn [before_full is_full app error info]; all_calls ltac:(reflexivity) | ].
      rewrite count_app. cbn. discriminate.
  - intros Hz. split.
    + destruct (transcribe_runs abi env contextPtr audioPath w)
        as [ _ | w' Hnz | chars pcm w' Hnz | chars pcm d rc' w' Hnz
           | chars pcm d k texts w' Hnz | chars w' Hnz ];
        [ reflexivity | contradiction .. ].
    + destruct (transcribeFromFloatArray_runs abi env contextPtr audioData w)
        as [ _ | w' Hnz | d rc' w' Hnz | d k texts w' Hnz ];
        [ reflexivity | contradiction .. ].
Qed.

(** X9: a run that returns logs an error line exactly when it does not
    succeed: [transcribe] and [transcribeFromFloatArray] log one error
    line unless an inference returned [0], and then none; [initContext]
    logs one unless the library gave it a context, and then none. *)
Theorem one_error_line_per_failure (modelPath audioPath : Jni.jstring)
    (contextPtr : Abi.jlong) (audioData : Jni.jfloatArray) w :
  count error_line (trace (initContext abi env modelPath) w)
  = (1 - count context_obtained (trace (initContext abi env modelPath) w))%nat /\
  (result (transcribe abi env contextPtr audioPath) w <> Undefined ->
   count error_line (trace (transcribe abi env contextPtr audioPath) w)
   = (1 - count full_succeeded (trace (transcribe abi env contextPtr audioPath) w))%nat) /\
  count error_line (trace (transcribeFromFloatArray abi env contextPtr audioData) w)
  = (1 - count full_succeeded
           (trace (transcribeFromFloatArray abi env contextPtr audioData) w))%nat.
Proof.
  split; [ | split ].
  - destruct (initContext_runs abi env modelPath w) as [ | chars cp | chars cp ctx Hnz ];
      try reflexivity.
    unfold count. cbn. destruct (Z.eqb_spec ctx 0); [ contradiction | reflexivity ].
  - destruct (transcribe_runs abi env contextPtr audioPath w)
      as [ Hz | w' Hnz Hmem | chars pcm w' Hnz Hmem Hread
         | chars pcm d rc' w' Hnz Hmem Hread Hrc'
         | chars pcm d k texts w' Hnz Hmem Hread Hlen | chars w' Hnz Hread ];
      intros Hdef; try reflexivity.
    + destruct (reader_refusal_trace w chars pcm Hread) as (fmt & args & ->). reflexivity.
    + unfold count. cbn. destruct (Z.eqb_spec rc' 0); [ contradiction | reflexivity ].
    + collecting_none. reflexivity.
    + now contradiction Hdef.
  - destruct (transcribeFromFloatArray_runs abi env contextPtr audioData w)
      as [ Hz | w' Hnz Hmem | d rc' w' Hnz Hmem Hrc' | d k texts w' Hnz Hmem Hlen ];
      try reflexivity.
    + unfold count. cbn. destruct (Z.eqb_spec rc' 0); [ contradiction | reflexivity ].
    + collecting_none. reflexivity.
Qed.

Lemma collecting_ends (announce : bool) ctx (n : Z) (texts : list string)
    (pre : list (call CParams Other)) (d : call CParams Other) :
  count string_created pre = 0%nat ->
  count string_created (pre ++ collecting announce ctx n texts) = 1%nat /\
  List.last (pre ++ collecting announce ctx n texts) d
  = NewStringUTF (String.concat " " texts).
Proof.
  intros Hpre. unfold collecting. split.
  - rewrite !count_app, Hpre.
    rewrite (count_none _ (map _ _))
      by (apply List.Forall_map, List.Forall_forall; intros [i s] _; reflexivity).
    destruct announce; reflexivity.
  - rewrite !app_assoc. apply last_last.
Qed.

(** X10: every call of [transcribe] that returns, and every call of
    [transcribeFromFloatArray] and [getSystemInfo], creates exactly one
    Java string, as the last thing it does, and returns that string; this
    holds on the failing paths as well as on the others. *)
Theorem one_string_is_created (contextPtr : Abi.jlong) (audioPath : Jni.jstring)
    (audioData : Jni.jfloatArray) w (d : call CParams Other) :
  (forall s : string,
      result (transcribe abi env contextPtr audioPath) w = Returns s ->
      count string_created (trace (transcribe abi env contextPtr audioPath) w) = 1%nat /\
      List.last (trace (transcribe abi env contextPtr audioPath) w) d = NewStringUTF s) /\
  (count string_created
     (trace (transcribeFromFloatArray abi env contextPtr audioData) w) = 1%nat /\
   List.last (trace (transcribeFromFloatArray abi env contextPtr audioData) w) d
   = NewStringUTF (result (transcribeFromFloatArray abi env contextPtr audioData) w)) /\
  (count string_created (trace (getSystemInfo env) w) = 1%nat /\
   List.last (trace (getSystemInfo env) w) d = NewStringUTF (result (getSystemInfo env) w) /\
   trace (getSystemInfo env) w
   = [whisper_print_system_info (result (getSystemInfo env) w);
      NewStringUTF (result (getSystemInfo env) w)]).
Proof.
  split; [ | split ].
  - destruct (transcribe_runs abi env contextPtr audioPath w)
      as [ Hz | w' Hnz Hmem | chars pcm w' Hnz Hmem Hread
         | chars pcm d' rc' w' Hnz Hmem Hread Hrc'
         | chars pcm d' k texts w' Hnz Hmem Hread Hlen | chars w' Hnz Hread ];
      intros s Hs; try discriminate; injection Hs as <-;
      try (split; reflexivity).
    + destruct (reader_trace_shape w chars) as [-> | (fmt & args & ->)];
        split; reflexivity.
    + now apply collecting_ends.
  - destruct (transcribeFromFloatArray_runs abi env contextPtr audioData w)
      as [ Hz | w' Hnz Hmem | d' rc' w' Hnz Hmem Hrc' | d' k texts w' Hnz Hmem Hlen ];
      try (split; reflexivity).
    now apply collecting_ends.
  - repeat split.
Qed.

Lemma trace_bind {A B : Type} (m : @M CParams Other Ext A)
    (k : A -> @M CParams Other Ext B) w :
  trace (bind m k) w = trace m w ++ trace (k (result m w)) (final m w).
Proof.
  unfold trace, result, final, bind.
  destruct (m w) as [[a w1] t1]. cbn [fst snd].
  destruct (k a w1) as [[b w2] t2]. reflexivity.
Qed.

(** X11: nothing guards against freeing twice: [freeContext] called
    twice with the same handle, other than [0], has the library free the
    same context twice. *)
Theorem freeing_twice_frees_twice (contextPtr : Abi.jlong) w :
  contextPtr <> 0 ->
  trace (bind (freeContext abi env contextPtr) (fun _ => freeContext abi env contextPtr)) w
  = [whisper_free (Abi.jlong_to_ptr abi contextPtr);
     info "Whisper context freed" [];
     whisper_free (Abi.jlong_to_ptr abi contextPtr);
     info "Whisper context freed" []].
Proof.
  intros Hnz. rewrite trace_bind.
  destruct (freeContext_runs abi env contextPtr w Hnz) as [-> _].
  destruct (freeContext_runs abi env contextPtr
              (final (freeContext abi env contextPtr) w) Hnz) as [-> _].
  reflexivity.
Qed.

(** X12: the handle [0] means failure and nothing else: when the
    pointers the library returns are addresses of the target,
    [initContext] returns [0] exactly when it got no context. *)
Theorem zero_handle_means_failure (modelPath : Jni.jstring) w :
  Abi.supported abi ->
  (forall path cp ctx,
      In (whisper_init_from_file_with_params path cp ctx)
         (trace (initContext abi env modelPath) w) ->
      Abi.is_ptr abi ctx) ->
  (result (initContext abi env modelPath) w = 0 <->
   init_failure modelPath (trace (initContext abi env modelPath) w)).
Proof.
  intros Hs.
  destruct (initContext_runs abi env modelPath w) as [ | chars cp | chars cp ctx Hnz ];
    intros Hptr.
  - split; [ intros _; left; cbn; tauto | reflexivity ].
  - split; [ intros _; right; exists chars, cp; cbn; tauto | reflexivity ].
  - assert (Hp : Abi.is_ptr abi ctx) by (apply (Hptr chars cp); cbn; tauto).
    split.
    + intros Hz. exfalso. exact (ptr_to_jlong_nonzero ctx Hs Hp Hnz Hz).
    + intros [Hin | (path & cp' & Hin)]; exfalso; cbn in Hin;
        intuition (try discriminate); congruence.
Qed.

(** X13: two contexts never get the same handle, and a handle is a Java
    [long]: on a supported target the conversion of addresses to handles
    is injective and stays within 64 bits. *)
Theorem handles_are_distinct (p q : Abi.ptr) :
  Abi.supported abi -> Abi.is_ptr abi p -> Abi.is_ptr abi q ->
  - 2 ^ 63 <= Abi.ptr_to_jlong abi p < 2 ^ 63 /\
  (Abi.ptr_to_jlong abi p = Abi.ptr_to_jlong abi q -> p = q).
Proof.
  intros Hs Hp Hq. split.
  - assert (Hr : forall z, - 2 ^ 63 <= Abi.signed 64 z < 2 ^ 63).
    { intros z. unfold Abi.signed.
      pose proof (Z.mod_pos_bound z (2 ^ 64) ltac:(lia)) as Hm.
      cbv zeta. change (2 ^ (64 - 1)) with (2 ^ 63).
      destruct (Z.ltb_spec (z mod 2 ^ 64) (2 ^ 63)); lia. }
    apply Hr.
  - intros Heq.
    rewrite <- (ptr_round_trip p Hs Hp), <- (ptr_round_trip q Hs Hq).
    now rewrite Heq.
Qed.

(** X14: on a 32-bit target a handle is cut to its low 32 bits: two
    handles that differ by a multiple of [2 ^ 32] name the same context,
    and [freeContext] frees the same one for both. *)
Theorem high_bits_are_dropped (contextPtr k : Z) w :
  Abi.ptr_bits abi = 32 ->
  contextPtr <> 0 -> contextPtr + k * 2 ^ 32 <> 0 ->
  Abi.jlong_to_ptr abi (contextPtr + k * 2 ^ 32) = Abi.jlong_to_ptr abi contextPtr /\
  trace (freeContext abi env (contextPtr + k * 2 ^ 32)) w
  = trace (freeContext abi env contextPtr) w.
Proof.
  intros H32 Hnz Hnz'.
  assert (Hsame : Abi.jlong_to_ptr abi (contextPtr + k * 2 ^ 32)
                  = Abi.jlong_to_ptr abi contextPtr)
    by (unfold Abi.jlong_to_ptr; rewrite H32; apply Z.mod_add; lia).
  split; [ exact Hsame | ].
  destruct (freeContext_runs abi env _ w Hnz) as [-> _].
  destruct (freeContext_runs abi env _ w Hnz') as [-> _].
  now rewrite Hsame.
Qed.

(** X15: the audio an inference of [transcribe] gets is what the reader
    makes, at the time of the call, of the file named by the characters
    the virtual machine handed out for the path; the reader accepted that
    file. *)
Theorem audio_is_the_named_file (contextPtr : Abi.jlong) (audioPath : Jni.jstring) w
    ctx (p : Whisper.full_params Other) (samples : list F32.t) (n rc : Z) :
  In (whisper_full ctx p samples n rc)
     (trace (transcribe abi env contextPtr audioPath) w) ->
  exists chars : string,
    In (GetStringUTFChars audioPath (Some chars))
       (trace (transcribe abi env contextPtr audioPath) w) /\
    result (@read_wav_file CParams Other Ext chars []) w = Returns (true, samples).
Proof.
  destruct (transcribe_runs abi env contextPtr audioPath w)
    as [ Hz | w' Hnz Hmem | chars pcm w' Hnz Hmem Hread
       | chars pcm d rc' w' Hnz Hmem Hread Hrc'
       | chars pcm d k texts w' Hnz Hmem Hread Hlen | chars w' Hnz Hread ];
    intros Hin.
  - cbn in Hin. intuition discriminate.
  - cbn in Hin. intuition discriminate.
  - exfalso. revert Hin.
    destruct (reader_trace_shape w chars) as [-> | (fmt & args & ->)];
      cbn; intuition discriminate.
  - exists chars. split; [ cbn; tauto | ].
    assert (samples = pcm) as ->
      by (cbn in Hin; intuition (try discriminate); congruence).
    exact Hread.
  - exists chars. split; [ cbn; tauto | ].
    assert (samples = pcm) as ->; [ | exact Hread ].
    apply in_app_or in Hin. destruct Hin as [Hin | Hin].
    + cbn in Hin. intuition (try discriminate); congruence.
    + exfalso. absent Hin ltac:(intros; discriminate).
  - cbn in Hin. intuition discriminate.
Qed.

(** X16: empty audio is not turned away: with a handle other than [0],
    [transcribe] on an accepted file of no sample, and
    [transcribeFromFloatArray] on an array of no element that the virtual
    machine hands out, still run the inference, on nothing. *)
Theorem empty_audio_is_inferred (contextPtr : Abi.jlong) (audioPath : Jni.jstring)
    (audioData : Jni.jfloatArray) w (chars : string) :
  (In (GetStringUTFChars audioPath (Some chars))
      (trace (transcribe abi env contextPtr audioPath) w) ->
   result (@read_wav_file CParams Other Ext chars []) w = Returns (true, []) ->
   exists d rc,
     In (whisper_full (Abi.jlong_to_ptr abi contextPtr) (configure d) [] 0 rc)
        (trace (transcribe abi env contextPtr audioPath) w))
  /\
  (In (GetFloatArrayElements audioData (Some []))
      (trace (transcribeFromFloatArray abi env contextPtr audioData) w) ->
   exists d rc,
     In (whisper_full (Abi.jlong_to_ptr abi contextPtr) (configure d) [] 0 rc)
        (trace (transcribeFromFloatArray abi env contextPtr audioData) w)).
Proof.
  split.
  - destruct (transcribe_runs abi env contextPtr audioPath w)
      as [ Hz | w' Hnz Hmem | chars' pcm w' Hnz Hmem Hread
         | chars' pcm d rc' w' Hnz Hmem Hread Hrc'
         | chars' pcm d k texts w' Hnz Hmem Hread Hlen | chars' w' Hnz Hread ];
      intros Hin Hempty.
    + cbn in Hin. intuition discriminate.
    + cbn in Hin. intuition discriminate.
    + exfalso.
      assert (chars = chars') as ->.
      { revert Hin.
        destruct (reader_trace_shape w chars') as [-> | (fmt & args & ->)];
          cbn; intuition (try discriminate); congruence. }
      rewrite Hempty in Hread. discriminate.
    + assert (chars = chars') as ->
        by (cbn in Hin; intuition (try discriminate); congruence).
      rewrite Hempty in Hread. injection Hread as <-.
      exists d, rc'. cbn. tauto.
    + assert (chars = chars') as ->.
      { apply in_app_or in Hin. destruct Hin as [Hin | Hin].
        - cbn in Hin. intuition (try discriminate); congruence.
        - exfalso. absent Hin ltac:(intros; discriminate). }
      rewrite Hempty in Hread. injection Hread as <-.
      exists d, 0. cbn. tauto.
    + exfalso.
      assert (chars = chars') as ->
        by (cbn in Hin; intuition (try discriminate); congruence).
      rewrite Hempty in Hread. discriminate.
  - destruct (transcribeFromFloatArray_runs abi env contextPtr audioData w)
      as [ Hz | w' Hnz Hmem | d rc' w' Hnz Hmem Hrc' | d k texts w' Hnz Hmem Hlen ];
      intros Hin.
    + cbn in Hin. intuition discriminate.
    + cbn in Hin. intuition discriminate.
    + assert (Hel : elements w audioData = [])
        by (cbn in Hin; intuition (try discriminate); congruence).
      rewrite Hel. exists d, rc'. cbn. tauto.
    + assert (Hel : elements w audioData = []).
      { apply in_app_or in Hin. destruct Hin as [Hin | Hin].
        - cbn in Hin. intuition (try discriminate); congruence.
        - exfalso. absent Hin ltac:(intros; discriminate). }
      rewrite Hel. exists d, 0. cbn. tauto.
Qed.

(** X17: [initContext] has the model loaded from the characters the
    virtual machine handed out for the path, under the context parameters
    the library gives as defaults, unchanged. *)
Theorem model_is_loaded_with_defaults (modelPath : Jni.jstring) w (path : string)
    (cp : CParams) ctx :
  In (whisper_init_from_file_with_params path cp ctx)
     (trace (initContext abi env modelPath) w) ->
  In (GetStringUTFChars modelPath (Some path)) (trace (initContext abi env modelPath) w) /\
  In (whisper_context_default_params cp) (trace (initContext abi env modelPath) w) /\
  count library_call (trace (initContext abi env modelPath) w) = 2%nat.
Proof.
  destruct (initContext_runs abi env modelPath w) as [ | chars cp' | chars cp' ctx' Hnz ];
    intros Hin.
  - cbn in Hin. intuition discriminate.
  - assert (path = chars /\ cp = cp') as [-> ->]
      by (cbn in Hin; intuition (try discriminate); congruence).
    cbn. tauto.
  - assert (path = chars /\ cp = cp') as [-> ->]
      by (cbn in Hin; intuition (try discriminate); congruence).
    cbn. tauto.
Qed.

Lemma segment_texts_done (announce : bool) ctx (n : Z) (texts : list string)
    (pre : list (call CParams Other)) :
  segment_texts pre = [] ->
  segment_texts (pre ++ collecting announce ctx n texts)
  = combine (upfrom 0 (Z.to_nat n)) texts.
Proof.
  intros Hpre. unfold segment_texts at 1. rewrite flat_map_app.
  fold (segment_texts pre).
  fold (segment_texts (collecting (CParams := CParams) (Other := Other)
                         announce ctx n texts)).
  now rewrite Hpre, segment_texts_collecting.
Qed.

Lemma single_text (n : Z) (texts : list string) (s : string) :
  length texts = Z.to_nat n ->
  combine (upfrom 0 (Z.to_nat n)) texts = [(0, s)] ->
  String.concat " " texts = s.
Proof.
  intros Hlen. rewrite <- Hlen.
  destruct texts as [ | s0 [ | s1 texts ] ]; cbn; intros H; try discriminate.
  now injection H as ->.
Qed.

(** X18: a transcription of one segment is the text of that segment as
    the library gave it (nothing is trimmed, escaped or marked), so a
    text that reads like an error message is returned like one. *)
Theorem single_segment_is_returned_verbatim (contextPtr : Abi.jlong)
    (audioPath : Jni.jstring) (audioData : Jni.jfloatArray) w (s : string) :
  (segment_texts (trace (transcribe abi env contextPtr audioPath) w) = [(0, s)] ->
   result (transcribe abi env contextPtr audioPath) w = Returns s)
  /\
  (segment_texts (trace (transcribeFromFloatArray abi env contextPtr audioData) w)
   = [(0, s)] ->
   result (transcribeFromFloatArray abi env contextPtr audioData) w = s).
Proof.
  split.
  - destruct (transcribe_runs abi env contextPtr audioPath w)
      as [ Hz | w' Hnz Hmem | chars pcm w' Hnz Hmem Hread
         | chars pcm d rc' w' Hnz Hmem Hread Hrc'
         | chars pcm d k texts w' Hnz Hmem Hread Hlen | chars w' Hnz Hread ];
      try (cbn; discriminate).
    + destruct (reader_trace_shape w chars) as [-> | (fmt & args & ->)]; cbn; discriminate.
    + rewrite segment_texts_done by reflexivity.
      intros H. f_equal. now apply (single_text k).
  - destruct (transcribeFromFloatArray_runs abi env contextPtr audioData w)
      as [ Hz | w' Hnz Hmem | d rc' w' Hnz Hmem Hrc' | d k texts w' Hnz Hmem Hlen ];
      try (cbn; discriminate).
    rewrite segment_texts_done by reflexivity. now apply single_text.
Qed.


End BridgeClaims.

(** ** The claims, on the concrete world *)

(** C1: the reader does not look at how many bytes the first [read]
    stored, so on a file too short to hold the magic it compares what the
    array [header] held before. The empty file, which starts with no
    "RIFF", is accepted when the stack still holds the header of a WAV
    file read earlier, and refused when the stack holds zeroes. *)
Theorem read_wav_file_short_file :
  files Demo.w_stale "empty.wav" = Some [] /\
  files Demo.w0 "empty.wav" = Some [] /\
  firstn 4 (@nil byte) <> riff /\
  result (@read_wav_file unit unit unit "empty.wav" []) Demo.w_stale
  = Returns (true, [S754_zero false; S754_zero false]) /\
  result (@read_wav_file unit unit unit "empty.wav" []) Demo.w0 = Returns (false, []).
Proof. repeat split. discriminate. Qed.

(** C4: the reader does not look at how many bytes the first [read]
    stored, so for a file that ends before byte 44 the data size is not a
    number of the file: it is what bytes 40 to 43 of the array [header]
    held before. The file of the four bytes "RIFF", which has no byte 40,
    is accepted with no sample when the stack holds zeroes and with two
    samples when the stack still holds the header of a WAV file of two
    samples: the number of samples of an accepted file is not decided by
    the file. And a file that passes the test of the magic, announces 3
    bytes and holds them does not give the one sample that half of 3
    makes: the second [read] writes its third byte past the vector. *)
Theorem read_wav_file_count_from_stack :
  files Files.w "magic.wav" = Some riff /\
  files Files.w_dirty "magic.wav" = Some riff /\
  nth_error riff 40 = None /\
  result (@read_wav_file unit unit unit "magic.wav" []) Files.w = Returns (true, []) /\
  result (@read_wav_file unit unit unit "magic.wav" []) Files.w_dirty
  = Returns (true, [S754_zero false; S754_zero false]) /\
  files Files.w "odd.wav" = Some Files.odd /\
  firstn 4 Files.odd = riff /\
  data_size_of Files.odd = 3 /\
  length Files.odd = 47%nat /\
  result (@read_wav_file unit unit unit "odd.wav" []) Files.w = Undefined.
Proof. repeat split. Qed.

(** C3, as the claim states it, fails: [whisper_full] returns 7, and the
    string [transcribe] returns does not hold the digits of 7; it is the
    string returned for the code 8 as well. *)
Lemma return_code_not_returned :
  In (whisper_full 4096 (configure Demo.default_params)
        [pcm16_to_f32 (-32768); pcm16_to_f32 32767] 2 7)
     (trace (transcribe Abi.arm64_v8a (Demo.lib true true 4096 7 []) 4096 "a.wav")
            Demo.w0) /\
  result (transcribe Abi.arm64_v8a (Demo.lib true true 4096 7 []) 4096 "a.wav") Demo.w0
  = Returns "Error: Transcription failed" /\
  occurs (decimal 7) "Error: Transcription failed" = false /\
  result (transcribe Abi.arm64_v8a (Demo.lib true true 4096 7 []) 4096 "a.wav") Demo.w0
  = result (transcribe Abi.arm64_v8a (Demo.lib true true 4096 8 []) 4096 "a.wav") Demo.w0.
Proof.
  split; [ | split; [ | split ]; reflexivity ].
  vm_compute. do 4 right. left. reflexivity.
Qed.

(** C2 on a run whose inference returns 7. *)
Lemma failures_return_sentinels_witness :
  (exists s : string,
      result (transcribe Abi.arm64_v8a (Demo.lib true true 4096 7 []) 4096 "a.wav")
             Demo.w0 = Returns s /\
      String.prefix "Error: " s = true) /\
  String.prefix "Error: "
    (result (transcribeFromFloatArray Abi.arm64_v8a (Demo.lib true false 4096 0 []) 4096 1%nat)
            Demo.w0) = true.
Proof.
  split.
  - apply (proj1 (failures_return_sentinels Abi.arm64_v8a (Demo.lib true true 4096 7 [])
                    4096 "a.wav" 1%nat Demo.w0)).
    right. left.
    exists (whisper_full 4096 (configure Demo.default_params)
              [pcm16_to_f32 (-32768); pcm16_to_f32 32767] 2 7).
    split.
    + vm_compute. do 4 right. left. reflexivity.
    + simpl. lia.
  - apply (proj2 (failures_return_sentinels Abi.arm64_v8a (Demo.lib true false 4096 0 [])
                    4096 "a.wav" 1%nat Demo.w0)).
    right.
    exists (GetFloatArrayElements 1%nat None).
    split.
    + vm_compute. right. left. reflexivity.
    + simpl. exact I.
Defined.

(** C3 on a run whose inference returns 7. *)
Lemma return_code_is_logged_witness :
  result (transcribe Abi.arm64_v8a (Demo.lib true true 4096 7 []) 4096 "a.wav") Demo.w0
  = Returns "Error: Transcription failed" /\
  In (error "Whisper transcription failed with code: %d" [Log.Int 7])
     (trace (transcribe Abi.arm64_v8a (Demo.lib true true 4096 7 []) 4096 "a.wav")
            Demo.w0).
Proof.
  apply (proj1 (return_code_is_logged Abi.arm64_v8a (Demo.lib true true 4096 7 [])
                  4096 "a.wav" 1%nat Demo.w0 4096 (configure Demo.default_params)
                  [pcm16_to_f32 (-32768); pcm16_to_f32 32767] 2 7 ltac:(lia))).
  vm_compute. do 4 right. left. reflexivity.
Defined.

(** C5 on a run that reads the two-sample file, whose samples are
    [-32768] and [32767]. *)
Lemma samples_are_normalized_witness :
  exists (chars : string) (c : list byte),
    In (GetStringUTFChars "a.wav" (Some chars))
       (trace (transcribe Abi.arm64_v8a (Demo.lib true true 4096 0 ["Hello"]) 4096 "a.wav")
              Demo.w0) /\
    files Demo.w0 chars = Some c /\
    2 = Z.of_nat (length [pcm16_to_f32 (-32768); pcm16_to_f32 32767]) /\
    Z.of_nat (length [pcm16_to_f32 (-32768); pcm16_to_f32 32767])
    = data_size_of (header_of Demo.w0 c) / 2 /\
    forall i : nat,
      (i < length [pcm16_to_f32 (-32768); pcm16_to_f32 32767])%nat ->
      exists x : F32.t,
        nth_error [pcm16_to_f32 (-32768); pcm16_to_f32 32767] i = Some x /\
        exact_quotient
          (Mem.load_i16 (Mem.byte_at c (44 + 2 * i)) (Mem.byte_at c (44 + 2 * i + 1)))
          x.
Proof.
  apply (proj1 (proj2 (samples_are_normalized Abi.arm64_v8a
                         (Demo.lib true true 4096 0 ["Hello"])
                         x00 x80 4096 "a.wav" Demo.w0 4096 (configure Demo.default_params)
                         [pcm16_to_f32 (-32768); pcm16_to_f32 32767] 2 0 "a.wav" []))).
  vm_compute. do 4 right. left. reflexivity.
Defined.

(** C6 on a run of each entry point. *)
Lemma inference_parameters_witness :
  configured
    (trace (transcribe Abi.arm64_v8a (Demo.lib true true 4096 0 ["Hello"; "world"])
              4096 "a.wav") Demo.w0)
    (configure Demo.default_params) /\
  configured
    (trace (transcribeFromFloatArray Abi.arm64_v8a
              (Demo.lib true true 4096 0 ["Hello"; "world"]) 4096 1%nat) Demo.w0)
    (configure Demo.default_params).
Proof.
  split.
  - apply (proj1 (inference_parameters Abi.arm64_v8a
                    (Demo.lib true true 4096 0 ["Hello"; "world"]) 4096 "a.wav" 1%nat
                    Demo.w0 4096 (configure Demo.default_params)
                    [pcm16_to_f32 (-32768); pcm16_to_f32 32767] 2 0)).
    vm_compute. do 4 right. left. reflexivity.
  - apply (proj2 (inference_parameters Abi.arm64_v8a
                    (Demo.lib true true 4096 0 ["Hello"; "world"]) 4096 "a.wav" 1%nat
                    Demo.w0 4096 (configure Demo.default_params) [F32.c32768] 1 0)).
    vm_compute. do 3 right. left. reflexivity.
Defined.

(** C8 on a 64-bit target and on a 32-bit one. *)
Lemma handle_round_trip_witness :
  Abi.jlong_to_ptr Abi.arm64_v8a
    (result (initContext Abi.arm64_v8a (Demo.lib true true (2 ^ 64 - 16) 0 []) "model.bin")
            Demo.w0) = 2 ^ 64 - 16 /\
  Abi.jlong_to_ptr Abi.armeabi_v7a
    (result (initContext Abi.armeabi_v7a (Demo.lib true true 4096 0 []) "model.bin")
            Demo.w0) = 4096.
Proof.
  split.
  - apply (handle_round_trip Abi.arm64_v8a (Demo.lib true true (2 ^ 64 - 16) 0 [])
             "model.bin" Demo.w0 "model.bin" tt (2 ^ 64 - 16)).
    + right. reflexivity.
    + unfold Abi.is_ptr. simpl. lia.
    + lia.
    + vm_compute. do 3 right. left. reflexivity.
  - apply (handle_round_trip Abi.armeabi_v7a (Demo.lib true true 4096 0 [])
             "model.bin" Demo.w0 "model.bin" tt 4096).
    + left. reflexivity.
    + unfold Abi.is_ptr. simpl. lia.
    + lia.
    + vm_compute. do 3 right. left. reflexivity.
Defined.

(** C9 on an [initContext] that gets no context from the library. *)
Lemma freeContext_null_witness :
  result (initContext Abi.arm64_v8a (Demo.lib true true 0 0 []) "model.bin") Demo.w0 = 0 /\
  freeContext Abi.arm64_v8a (Demo.lib true true 0 0 [])
    (result (initContext Abi.arm64_v8a (Demo.lib true true 0 0 []) "model.bin") Demo.w0)
    Demo.w0
  = (tt, Demo.w0, []).
Proof.
  apply (proj2 (freeContext_null Abi.arm64_v8a (Demo.lib true true 0 0 [])
                  "model.bin" Demo.w0 Demo.w0)).
  right. exists "model.bin", tt.
  vm_compute. do 3 right. left. reflexivity.
Defined.

(** C10 on a run that finds two segments. *)
Lemma transcription_is_joined_segments_witness :
  (exists r : string,
      result (transcribe Abi.arm64_v8a (Demo.lib true true 4096 0 ["Hello"; "world"])
                4096 "a.wav") Demo.w0 = Returns r /\
      joined 4096
        (trace (transcribe Abi.arm64_v8a (Demo.lib true true 4096 0 ["Hello"; "world"])
                  4096 "a.wav") Demo.w0) r) /\
  result (transcribe Abi.arm64_v8a (Demo.lib true true 4096 0 ["Hello"; "world"])
            4096 "a.wav") Demo.w0 = Returns "Hello world".
Proof.
  split; [ | reflexivity ].
  apply (proj1 (transcription_is_joined_segments Abi.arm64_v8a
                  (Demo.lib true true 4096 0 ["Hello"; "world"]) 4096 "a.wav" 1%nat
                  Demo.w0 4096 (configure Demo.default_params)
                  [pcm16_to_f32 (-32768); pcm16_to_f32 32767] 2)).
  vm_compute. do 4 right. left. reflexivity.
Defined.

(** ** More about the reader *)

Section ReaderExtras.

Context {CParams Other Ext : Type}.

Implicit Types (w : world Ext) (c : list byte) (pcm : list F32.t).

Abbreviation rd := (@read_wav_file CParams Other Ext).

Lemma bad_magic_agree (h h' : list byte) :
  (forall i, (i < 4)%nat -> Mem.byte_at h i = Mem.byte_at h' i) ->
  bad_magic h = bad_magic h'.
Proof.
  intros H. unfold bad_magic.
  now rewrite (H 0%nat), (H 1%nat), (H 2%nat), (H 3%nat) by lia.
Qed.

Lemma data_size_agree (h h' : list byte) :
  (forall i, (40 <= i < 44)%nat -> Mem.byte_at h i = Mem.byte_at h' i) ->
  data_size_of h = data_size_of h'.
Proof.
  intros H. unfold data_size_of.
  now rewrite (H 40%nat), (H 41%nat), (H 42%nat), (H 43%nat) by lia.
Qed.

Lemma byte_at_nth_error c c' (i : nat) :
  nth_error c i = nth_error c' i -> Mem.byte_at c i = Mem.byte_at c' i.
Proof.
  intros H. unfold Mem.byte_at.
  rewrite <- !nth_default_eq. unfold nth_default. now rewrite H.
Qed.

(** What the reader makes of a file that holds a whole header depends on
    bytes 0 to 3, on bytes 40 to 43 and on the bytes the second [read]
    stores, and on nothing else: not on the rest of the file, not on its
    name, not on the world. *)
Lemma read_wav_file_depends_on (w w' : world Ext) (f f' : string) pcm c c' :
  files w f = Some c -> files w' f' = Some c' ->
  (44 <= length c)%nat -> (44 <= length c')%nat ->
  (forall i, (i < 4)%nat -> Mem.byte_at c i = Mem.byte_at c' i) ->
  (forall i, (40 <= i < 44)%nat -> Mem.byte_at c i = Mem.byte_at c' i) ->
  firstn (Z.to_nat (data_size_of c)) (skipn 44 c)
  = firstn (Z.to_nat (data_size_of c)) (skipn 44 c') ->
  result (rd f pcm) w = result (rd f' pcm) w' /\
  trace (rd f pcm) w = trace (rd f' pcm) w'.
Proof.
  intros Hf Hf' Hlen Hlen' Hmagic Hsize Hdata.
  assert (Hbad : bad_magic (header_of w c) = bad_magic (header_of w' c')).
  { apply bad_magic_agree. intros i Hi. rewrite !header_of_file by lia. now apply Hmagic. }
  assert (Hd : data_size_of (header_of w c) = data_size_of (header_of w' c')).
  { rewrite !data_size_of_file by assumption. now apply data_size_agree. }
  assert (Hgot : data_of w c = data_of w' c').
  { rewrite !data_of_spec, <- Hd, (data_size_of_file w c Hlen).
    destruct (Nat.leb_spec 44 (length c)), (Nat.leb_spec 44 (length c')); try lia.
    exact Hdata. }
  unfold result, trace.
  rewrite (read_wav_file_opens w f pcm c Hf), (read_wav_file_opens w' f' pcm c' Hf').
  cbn [fst snd]. now rewrite Hbad, Hd, Hgot.
Qed.

(** X1: the reader never looks at bytes 4 to 39 of the header (the RIFF
    size, the WAVE tag, the format chunk with its channel count, sample
    rate and bit depth, the data tag): two files of at least 44 bytes
    that have the same bytes everywhere else, and so the same length, are
    read alike: the call is undefined for both, or returns the same and
    logs the same for both. *)
Theorem header_fields_are_ignored w (f f' : string) pcm c c' :
  files w f = Some c -> files w f' = Some c' ->
  (44 <= length c)%nat ->
  (forall i, (i < 4)%nat \/ (40 <= i)%nat -> nth_error c i = nth_error c' i) ->
  result (rd f pcm) w = result (rd f' pcm) w /\
  trace (rd f pcm) w = trace (rd f' pcm) w.
Proof.
  intros Hf Hf' Hlen Hsame.
  assert (Hlen' : (44 <= length c')%nat).
  { assert (H43 : nth_error c' 43 <> None).
    { rewrite <- Hsame by lia. apply nth_error_Some. lia. }
    apply nth_error_Some in H43. lia. }
  apply (read_wav_file_depends_on w w f f' pcm c c' Hf Hf' Hlen Hlen').
  - intros i Hi. apply byte_at_nth_error, Hsame. lia.
  - intros i Hi. apply byte_at_nth_error, Hsame. lia.
  - f_equal. apply nth_error_ext. intros i.
    rewrite !nth_error_skipn. apply Hsame. lia.
Qed.

(** X2: what follows the announced bytes is never read: when a file
    holds its header and all the bytes the header announces, appending
    bytes to it changes nothing: the call is undefined for both files, or
    returns the same and logs the same for both. *)
Theorem trailing_bytes_are_ignored w (f f' : string) pcm c (more : list byte) :
  files w f = Some c -> files w f' = Some (c ++ more) ->
  (44 + Z.to_nat (data_size_of c) <= length c)%nat ->
  result (rd f pcm) w = result (rd f' pcm) w /\
  trace (rd f pcm) w = trace (rd f' pcm) w.
Proof.
  intros Hf Hf' Hlen.
  assert (Hpre : forall i, (i < length c)%nat ->
                           Mem.byte_at c i = Mem.byte_at (c ++ more) i)
    by (intros i Hi; unfold Mem.byte_at; now rewrite app_nth1).
  apply (read_wav_file_depends_on w w f f' pcm c (c ++ more) Hf Hf');
    try (rewrite ?length_app; lia); try (intros i Hi; apply Hpre; lia).
  rewrite skipn_app, firstn_app, length_skipn.
  replace (Z.to_nat (data_size_of c) - (length c - 44))%nat with 0%nat by lia.
  cbn [firstn]. now rewrite app_nil_r.
Qed.

(** X3: a file that starts with "RIFF" and ends before the samples its
    header announces is accepted all the same, with as many samples as
    announced: the ones the file does not hold any byte of are
    [+0.0f]. *)
Theorem missing_samples_are_zero w (f : string) pcm c (i : nat) :
  files w f = Some c ->
  (44 <= length c)%nat ->
  firstn 4 c = riff ->
  (i < Z.to_nat (data_size_of c / 2))%nat ->
  (length c <= 44 + 2 * i)%nat ->
  exists samples : list F32.t,
    result (rd f pcm) w = Returns (true, samples) /\
    length samples = Z.to_nat (data_size_of c / 2) /\
    nth_error samples i = Some (S754_zero false).
Proof.
  intros Hf Hlen Hriff Hi Hcut.
  assert (Hb : bad_magic (header_of w c) = false) by (apply magic_of_file; [ lia | exact Hriff ]).
  pose proof (data_size_of_file w c Hlen) as Hd.
  assert (Hfit : (length (data_of w c)
                  <= length (repeat x00 (2 * Z.to_nat (data_size_of (header_of w c) / 2))))%nat).
  { rewrite repeat_length, data_of_spec, Hd.
    destruct (Nat.leb_spec 44 (length c)); [ | lia ].
    rewrite length_firstn, length_skipn. lia. }
  assert (Hok : result (rd f pcm) w
                = Returns (true, map pcm16_to_f32
                                   (Mem.as_i16
                                      (Mem.overwrite
                                         (repeat x00 (2 * Z.to_nat (data_size_of (header_of w c) / 2)))
                                         (data_of w c))))).
  { unfold result. rewrite (read_wav_file_opens w f pcm c Hf), Hb. cbn [fst].
    now rewrite (store_fits _ _ Hfit). }
  match type of Hok with _ = Returns (true, ?l) => set (samples := l) in * end.
  exists samples. split; [ exact Hok | ].
  destruct (read_wav_file_sample w f pcm c samples Hf Hok) as [Hcount Hnth].
  rewrite Hd in Hcount. split; [ exact Hcount | ].
  rewrite Hnth by (rewrite Hcount; exact Hi).
  unfold Mem.byte_at. rewrite !nth_overflow by lia. reflexivity.
Qed.

(** X4: a call of the reader that returns has changed nothing but the
    stack, where the 44 bytes of [header] now hold the first bytes of the
    file, as many as it has, and beyond them what they held before. When
    the reader refuses a file it logs one line, an error, and leaves the
    caller's vector as it was; when it accepts one it logs nothing, and
    what the vector held before has no part in what it holds after. *)
Theorem read_wav_file_effects w (f : string) (pcm pcm' : list F32.t) (ok : bool)
    (v : list F32.t) :
  result (rd f pcm) w = Returns (ok, v) ->
  ext (final (rd f pcm) w) = ext w /\
  heap (final (rd f pcm) w) = heap w /\
  files (final (rd f pcm) w) = files w /\
  (forall i : nat,
      stack (final (rd f pcm) w) i =
      match files w f with
      | Some c => if (i <? 44)%nat && (i <? length c)%nat then Mem.byte_at c i
                  else stack w i
      | None => stack w i
      end) /\
  if ok
  then trace (rd f pcm) w = [] /\ result (rd f pcm') w = Returns (true, v)
  else v = pcm /\
       length (trace (rd f pcm) w) = 1%nat /\
       count error_line (trace (rd f pcm) w) = 1%nat.
Proof.
  intros Hres.
  destruct (read_wav_file_final (CParams := CParams) (Other := Other) w f pcm)
    as (He & Hh & Hfs).
  split; [ exact He | ]. split; [ exact Hh | ]. split; [ exact Hfs | ]. split.
  - intros i. unfold final. destruct (files w f) as [c | ] eqn:Hf.
    + rewrite (read_wav_file_opens w f pcm c Hf). cbn [fst snd with_stack stack].
      unfold Mem.write. rewrite header_of_length.
      destruct (Nat.ltb_spec i 44) as [H44 | H44]; [ | reflexivity ].
      destruct (Nat.ltb_spec i (length c)) as [Hin | Hout]; cbn [andb].
      * now apply header_of_file.
      * now apply header_of_stack.
    + now rewrite (read_wav_file_unopenable w f pcm Hf).
  - destruct ok.
    + destruct (read_wav_file_acceptance w f pcm v Hres) as (c & Hf & Hb & Hfit & Ht & Hv).
      split; [ exact Ht | ].
      unfold result. rewrite (read_wav_file_opens w f pcm' c Hf), Hb. cbn [fst].
      rewrite store_fits by (rewrite repeat_length; exact Hfit). now rewrite Hv.
    + destruct (read_wav_file_refusal w f pcm v Hres) as (Hv & (fmt & args & Ht) & _).
      split; [ exact Hv | ]. rewrite Ht. split; reflexivity.
Qed.

Lemma overwrite_nothing (dst : list byte) : Mem.overwrite dst [] = dst.
Proof. unfold Mem.overwrite. cbn [length skipn app]. apply firstn_all. Qed.

Lemma as_i16_zeroes (k : nat) : Mem.as_i16 (repeat x00 (2 * k)) = repeat 0 k.
Proof.
  induction k as [ | k IH ]; [ reflexivity | ].
  replace (2 * S k)%nat with (S (S (2 * k))) by lia.
  cbn [repeat Mem.as_i16]. now rewrite IH.
Qed.

(** When the first [read] comes short and [header] starts with "RIFF"
    all the same, the file is accepted with samples that are all
    [+0.0f], half the data size found in [header] of them. *)
Lemma read_wav_file_short w (f : string) pcm c :
  files w f = Some c ->
  (length c < 44)%nat ->
  bad_magic (header_of w c) = false ->
  result (rd f pcm) w =
  Returns (true,
           repeat (S754_zero false) (Z.to_nat (data_size_of (header_of w c) / 2))).
Proof.
  intros Hf Hlen Hb.
  unfold result. rewrite (read_wav_file_opens w f pcm c Hf), Hb. cbn [fst].
  rewrite data_of_spec.
  destruct (Nat.leb_spec 44 (length c)); [ lia | ].
  rewrite store_fits by (cbn [length]; lia).
  rewrite overwrite_nothing, as_i16_zeroes, map_repeat. reflexivity.
Qed.

(** X5: a file of 4 to 40 bytes that starts with "RIFF" is accepted. The
    first [read] fails on it, so the second reads nothing: every sample
    is [+0.0f], and their number is half of what bytes 40 to 43 of the
    uninitialised array [header] happen to say. *)
Theorem short_riff_file w (f : string) pcm c :
  files w f = Some c ->
  firstn 4 c = riff ->
  (length c <= 40)%nat ->
  result (rd f pcm) w =
  Returns (true,
           repeat (S754_zero false)
             (Z.to_nat (Mem.load_u32 (stack w 40) (stack w 41) (stack w 42) (stack w 43)
                        / 2))).
Proof.
  intros Hf Hriff Hlen.
  assert (H4 : (4 <= length c)%nat).
  { rewrite <- (firstn_skipn 4 c), Hriff, length_app. cbn. lia. }
  assert (Hb : bad_magic (header_of w c) = false) by (now apply magic_of_file).
  rewrite (read_wav_file_short w f pcm c Hf ltac:(lia) Hb).
  assert (Hd : data_size_of (header_of w c)
               = Mem.load_u32 (stack w 40) (stack w 41) (stack w 42) (stack w 43))
    by (unfold data_size_of; now rewrite !header_of_stack by lia).
  now rewrite Hd.
Qed.

(** X21: the second [read] writes past the end of the vector, and the
    call is undefined, exactly when the file starts with "RIFF",
    announces an odd number of bytes and holds them all. *)
Theorem second_read_overruns w (f : string) pcm c :
  files w f = Some c ->
  (result (rd f pcm) w = Undefined <->
   firstn 4 c = riff /\
   Z.odd (data_size_of c) = true /\
   (44 + Z.to_nat (data_size_of c) <= length c)%nat).
Proof.
  intros Hf. rewrite read_wav_file_undefined.
  pose proof (data_size_range c) as Hr.
  pose proof (Zmod_odd (data_size_of c)) as Hodd.
  pose proof (Z.div_mod (data_size_of c) 2 ltac:(lia)) as Hdm.
  split.
  - intros (c' & Hf' & Hb & Hover). rewrite Hf in Hf'. injection Hf' as <-.
    rewrite data_of_spec in Hover.
    destruct (Nat.leb_spec 44 (length c)) as [Hlen | Hlen]; [ | cbn [length] in Hover; lia ].
    rewrite (data_size_of_file w c Hlen), length_firstn, length_skipn in Hover.
    split; [ apply (magic_of_file w c); [ lia | exact Hb ] | ].
    destruct (Z.odd (data_size_of c)); [ split; [ reflexivity | lia ] | lia ].
  - intros (Hriff & Ho & Hlen). exists c.
    assert (H44 : (44 <= length c)%nat) by lia.
    split; [ exact Hf | ].
    split; [ apply magic_of_file; [ lia | exact Hriff ] | ].
    rewrite data_of_spec.
    destruct (Nat.leb_spec 44 (length c)); [ | lia ].
    rewrite (data_size_of_file w c H44), length_firstn, length_skipn.
    rewrite Ho in Hodd. lia.
Qed.

(** X22: for every accepted file the number of samples is half the data
    size found in bytes 40 to 43 of [header], which for a file of at
    least 44 bytes is the unsigned 32-bit little-endian number in bytes
    40 to 43 of the file; and sample [i] is the quotient by 32768,
    exactly, of the signed 16-bit little-endian number in bytes
    [44 + 2 i] and [44 + 2 i + 1] of the file, a byte the file does not
    have counting as zero. *)
Theorem read_wav_file_samples w (f : string) pcm c (samples : list F32.t) :
  files w f = Some c ->
  result (rd f pcm) w = Returns (true, samples) ->
  Z.of_nat (length samples) = data_size_of (header_of w c) / 2 /\
  ((44 <= length c)%nat ->
   data_size_of (header_of w c)
   = Mem.u8 (Mem.byte_at c 40) + 2 ^ 8 * Mem.u8 (Mem.byte_at c 41)
     + 2 ^ 16 * Mem.u8 (Mem.byte_at c 42) + 2 ^ 24 * Mem.u8 (Mem.byte_at c 43)) /\
  forall i : nat,
    (i < length samples)%nat ->
    exists x : F32.t,
      nth_error samples i = Some x /\
      exact_quotient
        (Abi.signed 16 (Mem.u8 (Mem.byte_at c (44 + 2 * i))
                        + 2 ^ 8 * Mem.u8 (Mem.byte_at c (44 + 2 * i + 1))))
        x.
Proof.
  intros Hf Hok.
  destruct (read_wav_file_sample w f pcm c samples Hf Hok) as [Hlen Hnth].
  split; [ | split ].
  - rewrite Hlen. apply Z2Nat.id, Z.div_pos; [ | lia ].
    apply (data_size_range (header_of w c)).
  - intros H44. rewrite (data_size_of_file w c H44).
    unfold data_size_of. apply load_u32_le.
  - intros i Hi. eexists. split; [ exact (Hnth i Hi) | ].
    rewrite <- load_i16_le. apply exact_quotient_sample.
Qed.



End ReaderExtras.

(** ** More about the samples *)

Lemma u8_inj (a b : byte) : Mem.u8 a = Mem.u8 b -> a = b.
Proof.
  unfold Mem.u8. intros H. apply N2Z.inj in H.
  apply (f_equal Byte.of_N) in H. rewrite !Byte.of_to_N in H.
  now injection H.
Qed.

Lemma load_i16_inj (a0 a1 b0 b1 : byte) :
  Mem.load_i16 a0 a1 = Mem.load_i16 b0 b1 -> a0 = b0 /\ a1 = b1.
Proof.
  rewrite !load_i16_le. unfold Abi.signed.
  pose proof (u8_range a0). pose proof (u8_range a1).
  pose proof (u8_range b0). pose proof (u8_range b1).
  rewrite !Z.mod_small by lia. change (2 ^ (16 - 1)) with 32768.
  destruct (Z.ltb_spec (Mem.u8 a0 + 2 ^ 8 * Mem.u8 a1) 32768),
           (Z.ltb_spec (Mem.u8 b0 + 2 ^ 8 * Mem.u8 b1) 32768);
    intros Heq; split; apply u8_inj; lia.
Qed.

(** X19: the conversion of samples to [float] keeps their order: of two
    16-bit samples the lower becomes the lower number, and equal numbers
    come from equal samples only. *)
Theorem conversion_keeps_order (a0 a1 b0 b1 : byte) :
  exists qa qb : Q,
    F32.to_Q (pcm16_to_f32 (Mem.load_i16 a0 a1)) = Some qa /\
    F32.to_Q (pcm16_to_f32 (Mem.load_i16 b0 b1)) = Some qb /\
    (Mem.load_i16 a0 a1 < Mem.load_i16 b0 b1 <-> (qa < qb)%Q) /\
    (Mem.load_i16 a0 a1 = Mem.load_i16 b0 b1 <-> (qa == qb)%Q).
Proof.
  destruct (pcm16_to_f32_exact a0 a1) as (qa & Ha & Hqa).
  destruct (pcm16_to_f32_exact b0 b1) as (qb & Hb & Hqb).
  exists qa, qb. split; [ exact Ha | ]. split; [ exact Hb | ].
  rewrite Hqa, Hqb. split.
  - unfold Qlt. cbn. lia.
  - unfold Qeq. cbn. lia.
Qed.

(** X20: the conversion loses nothing: two samples that become the same
    [float] are made of the same two bytes. *)
Theorem conversion_is_lossless (a0 a1 b0 b1 : byte) :
  pcm16_to_f32 (Mem.load_i16 a0 a1) = pcm16_to_f32 (Mem.load_i16 b0 b1) ->
  a0 = b0 /\ a1 = b1.
Proof.
  intros Heq.
  destruct (pcm16_to_f32_exact a0 a1) as (qa & Ha & Hqa).
  destruct (pcm16_to_f32_exact b0 b1) as (qb & Hb & Hqb).
  rewrite Heq, Hb in Ha. injection Ha as ->.
  rewrite Hqa in Hqb. unfold Qeq in Hqb. cbn in Hqb.
  apply load_i16_inj. lia.
Qed.

(** ** The further properties, on concrete files and runs *)

(** X1 on two files that differ in bytes 4 to 39 only. *)
Lemma header_fields_are_ignored_witness :
  result (@read_wav_file unit unit unit "a.wav" []) Files.w
  = result (@read_wav_file unit unit unit "tagged.wav" []) Files.w /\
  trace (@read_wav_file unit unit unit "a.wav" []) Files.w
  = trace (@read_wav_file unit unit unit "tagged.wav" []) Files.w.
Proof.
  apply (header_fields_are_ignored (CParams := unit) (Other := unit)
           Files.w "a.wav" "tagged.wav" [] Demo.wav Files.tagged).
  - reflexivity.
  - reflexivity.
  - vm_compute. lia.
  - intros i Hi.
    do 48 (destruct i as [ | i ]; [ first [ reflexivity | lia ] | ]).
    destruct i; reflexivity.
Defined.

(** X2 on a file and the same file with a chunk after its data. *)
Lemma trailing_bytes_are_ignored_witness :
  result (@read_wav_file unit unit unit "a.wav" []) Files.w
  = result (@read_wav_file unit unit unit "trailing.wav" []) Files.w /\
  trace (@read_wav_file unit unit unit "a.wav" []) Files.w
  = trace (@read_wav_file unit unit unit "trailing.wav" []) Files.w.
Proof.
  apply (trailing_bytes_are_ignored (CParams := unit) (Other := unit)
           Files.w "a.wav" "trailing.wav" [] Demo.wav [x4c; x49; x53; x54; x00; x01]).
  - reflexivity.
  - reflexivity.
  - vm_compute. lia.
Defined.

(** X3 on a header that announces two samples and holds none. *)
Lemma missing_samples_are_zero_witness :
  exists samples : list F32.t,
    result (@read_wav_file unit unit unit "cut.wav" []) Files.w = Returns (true, samples) /\
    length samples = Z.to_nat (data_size_of Files.cut / 2) /\
    nth_error samples 1 = Some (S754_zero false).
Proof.
  apply (missing_samples_are_zero (CParams := unit) (Other := unit)
           Files.w "cut.wav" [] Files.cut 1).
  - reflexivity.
  - vm_compute. lia.
  - reflexivity.
  - vm_compute. lia.
  - vm_compute. lia.
Defined.

(** X4 on the two-sample file: its data size is on the stack
    afterwards. *)
Lemma read_wav_file_effects_witness :
  heap (final (@read_wav_file unit unit unit "a.wav" []) Demo.w0) = heap Demo.w0 /\
  stack (final (@read_wav_file unit unit unit "a.wav" []) Demo.w0) 40 = x04 /\
  trace (@read_wav_file unit unit unit "a.wav" []) Demo.w0 = [].
Proof.
  destruct (read_wav_file_effects (CParams := unit) (Other := unit) Demo.w0 "a.wav" [] []
              true [pcm16_to_f32 (-32768); pcm16_to_f32 32767] eq_refl)
    as (_ & Hheap & _ & Hstack & Htrace & _).
  split; [ exact Hheap | ]. split; [ exact (Hstack 40%nat) | exact Htrace ].
Defined.

(** X5 on the four bytes "RIFF", read over the header of another file. *)
Lemma short_riff_file_witness :
  result (@read_wav_file unit unit unit "magic.wav" []) Files.w_dirty
  = Returns (true, repeat (S754_zero false) 2).
Proof.
  apply (short_riff_file (CParams := unit) (Other := unit)
           Files.w_dirty "magic.wav" [] Files.magic_only).
  - reflexivity.
  - reflexivity.
  - vm_compute. lia.
Defined.

(** X6 on a run that returns. *)
Lemma strings_are_released_witness :
  count chars_released
    (trace (transcribe Abi.arm64_v8a (Demo.lib true true 4096 0 ["Hello"]) 4096 "a.wav")
           Files.w)
  = count chars_obtained
      (trace (transcribe Abi.arm64_v8a (Demo.lib true true 4096 0 ["Hello"]) 4096 "a.wav")
             Files.w).
Proof.
  apply (proj1 (proj2 (strings_are_released Abi.arm64_v8a
                         (Demo.lib true true 4096 0 ["Hello"]) "model.bin" "a.wav"
                         4096 Files.w))).
  vm_compute. discriminate.
Defined.

(** X8 on the handle [0]. *)
Lemma library_protocol_witness :
  count library_call
    (trace (transcribe Abi.arm64_v8a (Demo.lib true true 4096 0 ["Hello"]) 0 "a.wav")
           Demo.w0) = 0%nat /\
  count library_call
    (trace (transcribeFromFloatArray Abi.arm64_v8a (Demo.lib true true 4096 0 ["Hello"])
              0 1%nat) Demo.w0) = 0%nat.
Proof.
  apply (library_protocol Abi.arm64_v8a (Demo.lib true true 4096 0 ["Hello"])
           0 "a.wav" 1%nat Demo.w0).
  reflexivity.
Defined.

(** X9 on a run whose inference returns 7. *)
Lemma one_error_line_per_failure_witness :
  count error_line
    (trace (transcribe Abi.arm64_v8a (Demo.lib true true 4096 7 []) 4096 "a.wav") Files.w)
  = Nat.sub 1
      (count full_succeeded
         (trace (transcribe Abi.arm64_v8a (Demo.lib true true 4096 7 []) 4096 "a.wav")
                Files.w)).
Proof.
  apply (proj1 (proj2 (one_error_line_per_failure Abi.arm64_v8a
                         (Demo.lib true true 4096 7 []) "model.bin" "a.wav" 4096 1%nat
                         Files.w))).
  vm_compute. discriminate.
Defined.

(** X10 on a run that finds one segment. *)
Lemma one_string_is_created_witness :
  count string_created
    (trace (transcribe Abi.arm64_v8a (Demo.lib true true 4096 0 ["Hello"]) 4096 "a.wav")
           Files.w) = 1%nat /\
  List.last
    (trace (transcribe Abi.arm64_v8a (Demo.lib true true 4096 0 ["Hello"]) 4096 "a.wav")
           Files.w) (NewStringUTF "")
  = NewStringUTF "Hello".
Proof.
  apply (proj1 (one_string_is_created Abi.arm64_v8a
                  (Demo.lib true true 4096 0 ["Hello"]) 4096 "a.wav" 1%nat
                  Files.w (NewStringUTF ""))).
  reflexivity.
Defined.

(** X11 on the handle 4096. *)
Lemma freeing_twice_frees_twice_witness :
  count context_freed
    (trace (bind (freeContext Abi.arm64_v8a (Demo.lib true true 4096 0 []) 4096)
                 (fun _ => freeContext Abi.arm64_v8a (Demo.lib true true 4096 0 []) 4096))
           Demo.w0) = 2%nat.
Proof.
  rewrite (freeing_twice_frees_twice Abi.arm64_v8a (Demo.lib true true 4096 0 [])
             4096 Demo.w0 ltac:(lia)).
  reflexivity.
Defined.

(** X12 on a library that loads the model. *)
Lemma zero_handle_means_failure_witness :
  result (initContext Abi.arm64_v8a (Demo.lib true true 4096 0 []) "model.bin") Demo.w0 = 0
  <-> init_failure "model.bin"
        (trace (initContext Abi.arm64_v8a (Demo.lib true true 4096 0 []) "model.bin")
               Demo.w0).
Proof.
  apply (zero_handle_means_failure Abi.arm64_v8a (Demo.lib true true 4096 0 [])
           "model.bin" Demo.w0).
  - right. reflexivity.
  - intros path cp ctx Hin. vm_compute in Hin.
    assert (ctx = 4096) as -> by (intuition (try discriminate); congruence).
    unfold Abi.is_ptr. simpl. lia.
Defined.

(** X13 on two addresses of a 64-bit target. *)
Lemma handles_are_distinct_witness :
  - 2 ^ 63 <= Abi.ptr_to_jlong Abi.arm64_v8a (2 ^ 64 - 16) < 2 ^ 63 /\
  (Abi.ptr_to_jlong Abi.arm64_v8a (2 ^ 64 - 16) = Abi.ptr_to_jlong Abi.arm64_v8a 4096 ->
   2 ^ 64 - 16 = 4096).
Proof.
  apply (handles_are_distinct Abi.arm64_v8a (2 ^ 64 - 16) 4096).
  - right. reflexivity.
  - unfold Abi.is_ptr. simpl. lia.
  - unfold Abi.is_ptr. simpl. lia.
Defined.

(** X14 on the handles 4096 and 4096 + 2 ^ 32 of a 32-bit target. *)
Lemma high_bits_are_dropped_witness :
  Abi.jlong_to_ptr Abi.armeabi_v7a (4096 + 1 * 2 ^ 32) = Abi.jlong_to_ptr Abi.armeabi_v7a 4096
  /\
  trace (freeContext Abi.armeabi_v7a (Demo.lib true true 4096 0 []) (4096 + 1 * 2 ^ 32))
        Demo.w0
  = trace (freeContext Abi.armeabi_v7a (Demo.lib true true 4096 0 []) 4096) Demo.w0.
Proof.
  apply (high_bits_are_dropped Abi.armeabi_v7a (Demo.lib true true 4096 0 [])
           4096 1 Demo.w0).
  - reflexivity.
  - lia.
  - lia.
Defined.

(** X15 on a run that reads the two-sample file. *)
Lemma audio_is_the_named_file_witness :
  exists chars : string,
    In (GetStringUTFChars "a.wav" (Some chars))
       (trace (transcribe Abi.arm64_v8a (Demo.lib true true 4096 0 ["Hello"]) 4096 "a.wav")
              Demo.w0) /\
    result (@read_wav_file unit unit unit chars []) Demo.w0
    = Returns (true, [pcm16_to_f32 (-32768); pcm16_to_f32 32767]).
Proof.
  apply (audio_is_the_named_file Abi.arm64_v8a (Demo.lib true true 4096 0 ["Hello"])
           4096 "a.wav" Demo.w0 4096 (configure Demo.default_params)
           [pcm16_to_f32 (-32768); pcm16_to_f32 32767] 2 0).
  vm_compute. do 4 right. left. reflexivity.
Defined.

(** X16 on a file of no sample and on an array of no element. *)
Lemma empty_audio_is_inferred_witness :
  (exists d rc,
      In (whisper_full (Abi.jlong_to_ptr Abi.arm64_v8a 4096) (configure d) [] 0 rc)
         (trace (transcribe Abi.arm64_v8a (Demo.lib true true 4096 0 []) 4096 "magic.wav")
                Files.w)) /\
  (exists d rc,
      In (whisper_full (Abi.jlong_to_ptr Abi.arm64_v8a 4096) (configure d) [] 0 rc)
         (trace (transcribeFromFloatArray Abi.arm64_v8a (Demo.lib true true 4096 0 [])
                   4096 7%nat) Files.w)).
Proof.
  split.
  - apply (proj1 (empty_audio_is_inferred Abi.arm64_v8a (Demo.lib true true 4096 0 [])
                    4096 "magic.wav" 7%nat Files.w "magic.wav")).
    + vm_compute. left. reflexivity.
    + reflexivity.
  - apply (proj2 (empty_audio_is_inferred Abi.arm64_v8a (Demo.lib true true 4096 0 [])
                    4096 "magic.wav" 7%nat Files.w "magic.wav")).
    vm_compute. right. left. reflexivity.
Defined.

(** X17 on a library that loads the model. *)
Lemma model_is_loaded_with_defaults_witness :
  In (GetStringUTFChars "model.bin" (Some "model.bin"))
     (trace (initContext Abi.arm64_v8a (Demo.lib true true 4096 0 []) "model.bin") Demo.w0) /\
  In (whisper_context_default_params tt)
     (trace (initContext Abi.arm64_v8a (Demo.lib true true 4096 0 []) "model.bin") Demo.w0) /\
  count library_call
    (trace (initContext Abi.arm64_v8a (Demo.lib true true 4096 0 []) "model.bin") Demo.w0)
  = 2%nat.
Proof.
  apply (model_is_loaded_with_defaults Abi.arm64_v8a (Demo.lib true true 4096 0 [])
           "model.bin" Demo.w0 "model.bin" tt 4096).
  vm_compute. do 3 right. left. reflexivity.
Defined.

(** X18 on a successful run whose one segment reads like a failure. *)
Lemma single_segment_is_returned_verbatim_witness :
  count full_succeeded
    (trace (transcribe Abi.arm64_v8a
              (Demo.lib true true 4096 0 ["Error: Transcription failed"]) 4096 "a.wav")
           Demo.w0) = 1%nat /\
  result (transcribe Abi.arm64_v8a
            (Demo.lib true true 4096 0 ["Error: Transcription failed"]) 4096 "a.wav")
         Demo.w0 = Returns "Error: Transcription failed".
Proof.
  split; [ reflexivity | ].
  apply (proj1 (single_segment_is_returned_verbatim Abi.arm64_v8a
                  (Demo.lib true true 4096 0 ["Error: Transcription failed"])
                  4096 "a.wav" 1%nat Demo.w0 "Error: Transcription failed")).
  reflexivity.
Defined.

(** X20 on the bytes of the sample 32767. *)
Lemma conversion_is_lossless_witness : xff = xff /\ x7f = x7f.
Proof.
  apply (conversion_is_lossless xff x7f xff x7f). reflexivity.
Defined.

(** X21 on a file that announces three bytes and holds them. *)
Lemma second_read_overruns_witness :
  result (@read_wav_file unit unit unit "odd.wav" []) Files.w = Undefined.
Proof.
  apply (proj2 (second_read_overruns (CParams := unit) (Other := unit)
                  Files.w "odd.wav" [] Files.odd eq_refl)).
  split; [ reflexivity | ]. split; [ reflexivity | ]. vm_compute. lia.
Defined.

(** X22 on the two-sample file. *)
Lemma read_wav_file_samples_witness :
  Z.of_nat (length [pcm16_to_f32 (-32768); pcm16_to_f32 32767])
  = data_size_of (header_of Demo.w0 Demo.wav) / 2 /\
  ((44 <= length Demo.wav)%nat ->
   data_size_of (header_of Demo.w0 Demo.wav)
   = Mem.u8 (Mem.byte_at Demo.wav 40) + 2 ^ 8 * Mem.u8 (Mem.byte_at Demo.wav 41)
     + 2 ^ 16 * Mem.u8 (Mem.byte_at Demo.wav 42)
     + 2 ^ 24 * Mem.u8 (Mem.byte_at Demo.wav 43)) /\
  forall i : nat,
    (i < length [pcm16_to_f32 (-32768); pcm16_to_f32 32767])%nat ->
    exists x : F32.t,
      nth_error [pcm16_to_f32 (-32768); pcm16_to_f32 32767] i = Some x /\
      exact_quotient
        (Abi.signed 16 (Mem.u8 (Mem.byte_at Demo.wav (44 + 2 * i))
                        + 2 ^ 8 * Mem.u8 (Mem.byte_at Demo.wav (44 + 2 * i + 1))))
        x.
Proof.
  apply (read_wav_file_samples (CParams := unit) (Other := unit)
           Demo.w0 "a.wav" [] Demo.wav [pcm16_to_f32 (-32768); pcm16_to_f32 32767]).
  - reflexivity.
  - reflexivity.
Defined.


